(** * LoStack's terminal console ([TerminalModal] in app/static/js/main.js)

    A shallow embedding of the streaming console: the [TerminalModal]
    instance, the parts of the DOM it reads and writes (#modalLog and its
    scroll geometry, the autoscroll checkbox, the pause button, the status
    badge), and the browser around it (EventSource connections, console,
    toasts, page reload).  Every handler is a function [Page -> Page]; the
    event loop is a fold of [step] over a list of events. *)

From Stdlib Require Import String List Bool ZArith Lia Ascii Permutation.
Import ListNotations.

(** Observable effects outside the page state. *)
Inductive Effect :=
| ConsoleLog (msg : string)
| ConsoleError (msg : string)
| ShowToast (toastId : string)
| Alert (msg : string)
| PageReload.

Record Page := mkPage {
  es : option nat;        (* this.es: the live EventSource, by connection id *)
  autoscroll : bool;      (* this.autoscroll *)
  isPaused : bool;        (* this.isPaused *)
  messageBuffer : list string; (* this.messageBuffer *)
  streamEnded : bool;     (* this.streamEnded *)
  reloadOnClose : bool;   (* this.reloadOnClose *)
  log : list string;      (* children of #modalLog, one per appendMessage, by source text *)
  scrollTop : Z;          (* #modalLog.scrollTop *)
  clientHeight : Z;       (* #modalLog.clientHeight *)
  autoscrollChecked : bool; (* #modalAutoscrollToggle.checked *)
  pauseLabel : string;    (* #modalPauseButton.textContent *)
  status : string;        (* #streamStatus.textContent *)
  listeners : nat;        (* how many times setupEventListeners has registered its handlers *)
  next_conn : nat;        (* id of the next EventSource the page creates *)
  live : list nat;        (* EventSource connections open in the browser *)
  closes : list nat;      (* ids passed to EventSource.close(), in call order *)
  effects : list Effect;  (* console, toast, alert and reload effects, in order *)
}.

Definition set_es (v : option nat) (p : Page) : Page :=
  mkPage v (p.(autoscroll)) (p.(isPaused)) (p.(messageBuffer)) (p.(streamEnded)) (p.(reloadOnClose)) (p.(log)) (p.(scrollTop)) (p.(clientHeight)) (p.(autoscrollChecked)) (p.(pauseLabel)) (p.(status)) (p.(listeners)) (p.(next_conn)) (p.(live)) (p.(closes)) (p.(effects)).
Definition set_autoscroll (v : bool) (p : Page) : Page :=
  mkPage (p.(es)) v (p.(isPaused)) (p.(messageBuffer)) (p.(streamEnded)) (p.(reloadOnClose)) (p.(log)) (p.(scrollTop)) (p.(clientHeight)) (p.(autoscrollChecked)) (p.(pauseLabel)) (p.(status)) (p.(listeners)) (p.(next_conn)) (p.(live)) (p.(closes)) (p.(effects)).
Definition set_isPaused (v : bool) (p : Page) : Page :=
  mkPage (p.(es)) (p.(autoscroll)) v (p.(messageBuffer)) (p.(streamEnded)) (p.(reloadOnClose)) (p.(log)) (p.(scrollTop)) (p.(clientHeight)) (p.(autoscrollChecked)) (p.(pauseLabel)) (p.(status)) (p.(listeners)) (p.(next_conn)) (p.(live)) (p.(closes)) (p.(effects)).
Definition set_messageBuffer (v : list string) (p : Page) : Page :=
  mkPage (p.(es)) (p.(autoscroll)) (p.(isPaused)) v (p.(streamEnded)) (p.(reloadOnClose)) (p.(log)) (p.(scrollTop)) (p.(clientHeight)) (p.(autoscrollChecked)) (p.(pauseLabel)) (p.(status)) (p.(listeners)) (p.(next_conn)) (p.(live)) (p.(closes)) (p.(effects)).
Definition set_streamEnded (v : bool) (p : Page) : Page :=
  mkPage (p.(es)) (p.(autoscroll)) (p.(isPaused)) (p.(messageBuffer)) v (p.(reloadOnClose)) (p.(log)) (p.(scrollTop)) (p.(clientHeight)) (p.(autoscrollChecked)) (p.(pauseLabel)) (p.(status)) (p.(listeners)) (p.(next_conn)) (p.(live)) (p.(closes)) (p.(effects)).
Definition set_reloadOnClose (v : bool) (p : Page) : Page :=
  mkPage (p.(es)) (p.(autoscroll)) (p.(isPaused)) (p.(messageBuffer)) (p.(streamEnded)) v (p.(log)) (p.(scrollTop)) (p.(clientHeight)) (p.(autoscrollChecked)) (p.(pauseLabel)) (p.(status)) (p.(listeners)) (p.(next_conn)) (p.(live)) (p.(closes)) (p.(effects)).
Definition set_log (v : list string) (p : Page) : Page :=
  mkPage (p.(es)) (p.(autoscroll)) (p.(isPaused)) (p.(messageBuffer)) (p.(streamEnded)) (p.(reloadOnClose)) v (p.(scrollTop)) (p.(clientHeight)) (p.(autoscrollChecked)) (p.(pauseLabel)) (p.(status)) (p.(listeners)) (p.(next_conn)) (p.(live)) (p.(closes)) (p.(effects)).
Definition set_scrollTop (v : Z) (p : Page) : Page :=
  mkPage (p.(es)) (p.(autoscroll)) (p.(isPaused)) (p.(messageBuffer)) (p.(streamEnded)) (p.(reloadOnClose)) (p.(log)) v (p.(clientHeight)) (p.(autoscrollChecked)) (p.(pauseLabel)) (p.(status)) (p.(listeners)) (p.(next_conn)) (p.(live)) (p.(closes)) (p.(effects)).
Definition set_clientHeight (v : Z) (p : Page) : Page :=
  mkPage (p.(es)) (p.(autoscroll)) (p.(isPaused)) (p.(messageBuffer)) (p.(streamEnded)) (p.(reloadOnClose)) (p.(log)) (p.(scrollTop)) v (p.(autoscrollChecked)) (p.(pauseLabel)) (p.(status)) (p.(listeners)) (p.(next_conn)) (p.(live)) (p.(closes)) (p.(effects)).
Definition set_autoscrollChecked (v : bool) (p : Page) : Page :=
  mkPage (p.(es)) (p.(autoscroll)) (p.(isPaused)) (p.(messageBuffer)) (p.(streamEnded)) (p.(reloadOnClose)) (p.(log)) (p.(scrollTop)) (p.(clientHeight)) v (p.(pauseLabel)) (p.(status)) (p.(listeners)) (p.(next_conn)) (p.(live)) (p.(closes)) (p.(effects)).
Definition set_pauseLabel (v : string) (p : Page) : Page :=
  mkPage (p.(es)) (p.(autoscroll)) (p.(isPaused)) (p.(messageBuffer)) (p.(streamEnded)) (p.(reloadOnClose)) (p.(log)) (p.(scrollTop)) (p.(clientHeight)) (p.(autoscrollChecked)) v (p.(status)) (p.(listeners)) (p.(next_conn)) (p.(live)) (p.(closes)) (p.(effects)).
Definition set_status (v : string) (p : Page) : Page :=
  mkPage (p.(es)) (p.(autoscroll)) (p.(isPaused)) (p.(messageBuffer)) (p.(streamEnded)) (p.(reloadOnClose)) (p.(log)) (p.(scrollTop)) (p.(clientHeight)) (p.(autoscrollChecked)) (p.(pauseLabel)) v (p.(listeners)) (p.(next_conn)) (p.(live)) (p.(closes)) (p.(effects)).
Definition set_listeners (v : nat) (p : Page) : Page :=
  mkPage (p.(es)) (p.(autoscroll)) (p.(isPaused)) (p.(messageBuffer)) (p.(streamEnded)) (p.(reloadOnClose)) (p.(log)) (p.(scrollTop)) (p.(clientHeight)) (p.(autoscrollChecked)) (p.(pauseLabel)) (p.(status)) v (p.(next_conn)) (p.(live)) (p.(closes)) (p.(effects)).
Definition set_next_conn (v : nat) (p : Page) : Page :=
  mkPage (p.(es)) (p.(autoscroll)) (p.(isPaused)) (p.(messageBuffer)) (p.(streamEnded)) (p.(reloadOnClose)) (p.(log)) (p.(scrollTop)) (p.(clientHeight)) (p.(autoscrollChecked)) (p.(pauseLabel)) (p.(status)) (p.(listeners)) v (p.(live)) (p.(closes)) (p.(effects)).
Definition set_live (v : list nat) (p : Page) : Page :=
  mkPage (p.(es)) (p.(autoscroll)) (p.(isPaused)) (p.(messageBuffer)) (p.(streamEnded)) (p.(reloadOnClose)) (p.(log)) (p.(scrollTop)) (p.(clientHeight)) (p.(autoscrollChecked)) (p.(pauseLabel)) (p.(status)) (p.(listeners)) (p.(next_conn)) v (p.(closes)) (p.(effects)).
Definition set_closes (v : list nat) (p : Page) : Page :=
  mkPage (p.(es)) (p.(autoscroll)) (p.(isPaused)) (p.(messageBuffer)) (p.(streamEnded)) (p.(reloadOnClose)) (p.(log)) (p.(scrollTop)) (p.(clientHeight)) (p.(autoscrollChecked)) (p.(pauseLabel)) (p.(status)) (p.(listeners)) (p.(next_conn)) (p.(live)) v (p.(effects)).
Definition set_effects (v : list Effect) (p : Page) : Page :=
  mkPage (p.(es)) (p.(autoscroll)) (p.(isPaused)) (p.(messageBuffer)) (p.(streamEnded)) (p.(reloadOnClose)) (p.(log)) (p.(scrollTop)) (p.(clientHeight)) (p.(autoscrollChecked)) (p.(pauseLabel)) (p.(status)) (p.(listeners)) (p.(next_conn)) (p.(live)) (p.(closes)) v.

(** ** Rendering and scroll geometry of #modalLog *)

Definition esc : ascii := ascii_of_nat 27.
Definition nl : ascii := ascii_of_nat 10.

(** ['\x1b[32m\nStream completed\x1b[0m'], appended by [handleStreamEnd]. *)
Definition stream_completed : string :=
  String esc ("[32m" ++ String nl ("Stream completed" ++ String esc "[0m"))%string.

Fixpoint newlines (s : string) : nat :=
  match s with
  | EmptyString => 0
  | String c s' => (if Ascii.eqb c nl then 1 else 0) + newlines s'
  end.

(** Layout: the height a rendered message div adds to the log. *)
Definition row_height (data : string) : Z := 18 * Z.of_nat (S (newlines data)).

Fixpoint content_height (l : list string) : Z :=
  match l with
  | [] => 0
  | d :: l' => row_height d + content_height l'
  end.

Definition scrollHeight (p : Page) : Z :=
  Z.max p.(clientHeight) (content_height p.(log)).

(** The browser keeps [scrollTop] within [0, scrollHeight - clientHeight]. *)
Definition clamp_scrollTop (p : Page) (v : Z) : Z :=
  Z.max 0 (Z.min v (scrollHeight p - p.(clientHeight))).

Definition add_effect (e : Effect) (p : Page) : Page :=
  set_effects (p.(effects) ++ [e]) p.

(** ** TerminalModal methods *)

Definition scrollToBottom (p : Page) : Page :=
  set_scrollTop (clamp_scrollTop p (scrollHeight p)) p.

Definition appendMessage (data : string) (p : Page) : Page :=
  let p := set_log (p.(log) ++ [data]) p in
  if p.(autoscroll) then scrollToBottom p else p.

Definition showToast (toastId : string) (p : Page) : Page :=
  add_effect (ShowToast toastId) p.

(** [EventSource.close()] on connection [c]. *)
Definition close_es (c : nat) (p : Page) : Page :=
  set_closes (p.(closes) ++ [c]) (set_live (remove Nat.eq_dec c p.(live)) p).

(** [if (this.es) { this.es.close(); this.es = null; }] *)
Definition close_current (p : Page) : Page :=
  match p.(es) with
  | Some c => set_es None (close_es c p)
  | None => p
  end.

Definition handleStreamEnd (p : Page) : Page :=
  if p.(streamEnded) then p else
  let p := set_streamEnded true p in
  let p := appendMessage stream_completed p in
  let p := set_status "Completed" p in
  let p := close_current p in
  set_reloadOnClose true p.

(** [this.es = new EventSource(streamUrl)]; the handlers set on the new
    object refer to the shared instance. *)
Definition initializeEventSource (streamUrl : string) (p : Page) : Page :=
  let c := p.(next_conn) in
  set_es (Some c) (set_live (p.(live) ++ [c]) (set_next_conn (S c) p)).

Definition onopen (p : Page) : Page := set_status "Connected" p.

Definition onmessage (data : string) (p : Page) : Page :=
  if p.(isPaused) then set_messageBuffer (p.(messageBuffer) ++ [data]) p
  else appendMessage data p.

Definition onerror (p : Page) : Page :=
  handleStreamEnd (add_effect (ConsoleLog "EventSource closed:") p).

(** Each call adds one more copy of every listener of the console. *)
Definition setupEventListeners (p : Page) : Page :=
  set_listeners (S p.(listeners)) p.

Definition launch (streamUrl : string) (p : Page) : Page :=
  let p := setupEventListeners p in
  let p := initializeEventSource streamUrl p in
  (* this.modal.show(); this.log.innerHTML = '' *)
  let p := set_log [] p in
  let p := set_scrollTop (clamp_scrollTop p p.(scrollTop)) p in
  let p := set_streamEnded false p in
  let p := set_reloadOnClose false p in
  set_status "Connecting..." p.

(** [while (this.messageBuffer.length > 0)
       this.appendMessage(this.messageBuffer.shift());] *)
Fixpoint drain (fuel : nat) (p : Page) : Page :=
  match fuel with
  | O => p
  | S f =>
      match p.(messageBuffer) with
      | [] => p
      | d :: rest => drain f (appendMessage d (set_messageBuffer rest p))
      end
  end.

Definition togglePause (p : Page) : Page :=
  let p := set_isPaused (negb p.(isPaused)) p in
  let p := if p.(isPaused) then set_pauseLabel "Resume" p
           else let p := set_pauseLabel "Pause" p in
                drain (length p.(messageBuffer)) p in
  showToast "modalPauseToast" p.

(** [streamEndTimeout] is never assigned a timer in the source, so the
    [clearTimeout] branches are dead; [this.modal.hide()] makes Bootstrap
    fire [hidden.bs.modal] later ([Hidden] below). *)
Definition closeAndReload (p : Page) : Page :=
  set_reloadOnClose true p.

Definition cleanup (p : Page) : Page :=
  set_messageBuffer [] (close_current p).

(** The [hidden.bs.modal] listener. *)
Definition hiddenHandler (p : Page) : Page :=
  let p := cleanup p in
  if p.(reloadOnClose) then add_effect PageReload p else p.

(** The scroll listener on #modalLog. *)
Definition isAtBottom (p : Page) : bool :=
  (scrollHeight p - 5 <=? p.(scrollTop) + p.(clientHeight))%Z.

Definition scrollHandler (p : Page) : Page :=
  let b := isAtBottom p in
  if Bool.eqb b p.(autoscroll) then p
  else set_autoscrollChecked b (set_autoscroll b p).

(** The change listener on #modalAutoscrollToggle. *)
Definition autoscrollChange (p : Page) : Page :=
  let p := set_autoscroll p.(autoscrollChecked) p in
  if p.(autoscroll) then scrollToBottom p else p.

(** A freshly loaded page: [const terminalModal = new TerminalModal()]. *)
Definition page_load (h : Z) (next : nat) (cl : list nat) (eff : list Effect) : Page :=
  mkPage None true false [] false false [] 0 h true "Pause" "" 0 next [] cl eff.

Definition initial_page : Page := page_load 400 0 [] [].

(** [location.reload()]: the page, its instance and its connections go. *)
Definition reload (p : Page) : Page :=
  page_load p.(clientHeight) p.(next_conn) p.(closes) p.(effects).

Definition hidden (p : Page) : Page :=
  match p.(listeners) with
  | O => p
  | S _ =>
      let p := Nat.iter p.(listeners) hiddenHandler p in
      if p.(reloadOnClose) then reload p else p
  end.

(** ** [copyToClipboard]: an async method with try/catch

    A computation on the page either completes normally or throws; [try_catch]
    is the JavaScript [try { ... } catch (err) { ... }]. *)

Inductive Completion (A : Type) :=
| Normal (a : A)
| Throw (err : string).
Arguments Normal {A} a.
Arguments Throw {A} err.

Definition JS (A : Type) : Type := Page -> Page * Completion A.

Definition js_ret {A} (a : A) : JS A := fun p => (p, Normal a).

Definition js_bind {A B} (m : JS A) (k : A -> JS B) : JS B :=
  fun p =>
    match m p with
    | (p', Normal a) => k a p'
    | (p', Throw e) => (p', Throw e)
    end.

Notation "x <- m ;; k" := (js_bind m (fun x => k))
  (at level 61, m at next level, right associativity).

Definition js_do (f : Page -> Page) : JS unit := fun p => (f p, Normal tt).

Definition try_catch {A} (body : JS A) (handler : string -> JS A) : JS A :=
  fun p =>
    match body p with
    | (p', Normal a) => (p', Normal a)
    | (p', Throw e) => handler e p'
    end.

(** What the clipboard does with a write request. *)
Inductive ClipboardOutcome :=
| Granted
| Denied (reason : string).

(** [await navigator.clipboard.writeText(text)] *)
Definition writeText (o : ClipboardOutcome) (text : string) : JS unit :=
  fun p =>
    match o with
    | Granted => (p, Normal tt)
    | Denied r => (p, Throw r)
    end.

(** [this.log.textContent] *)
Definition textContent : JS string :=
  fun p => (p, Normal (String.concat "" p.(log))).

Definition copyToClipboard (o : ClipboardOutcome) : JS unit :=
  try_catch
    (text <- textContent ;;
     _ <- writeText o text ;;
     js_do (showToast "modalCopyToast"))
    (fun err => js_do (add_effect (ConsoleError ("Failed to copy: " ++ err)))).

(** ** The event loop *)

Inductive Event :=
| Launch (streamUrl : string)       (* launchTerminalModal(streamUrl) *)
| Open (c : nat)                    (* onopen of connection c *)
| Message (c : nat) (data : string) (* onmessage of connection c *)
| Error (c : nat)                   (* onerror of connection c *)
| PauseClick                        (* click on #modalPauseButton *)
| DoneClick                         (* click on #doneButton *)
| CopyClick (o : ClipboardOutcome)  (* click on #modalCopyButton *)
| AutoscrollClick                   (* click on #modalAutoscrollToggle *)
| UserScroll (y : Z)                (* the operator scrolls #modalLog to y *)
| Hidden.                           (* Bootstrap fires hidden.bs.modal *)

(** A DOM event runs every registered copy of its listener, in order.
    The EventSource handlers are properties, set once per connection, and
    do not look at which connection fired them. *)
Definition step (p : Page) (e : Event) : Page :=
  match e with
  | Launch url => launch url p
  | Open _ => onopen p
  | Message _ data => onmessage data p
  | Error _ => onerror p
  | PauseClick => Nat.iter p.(listeners) togglePause p
  | DoneClick => Nat.iter p.(listeners) closeAndReload p
  | CopyClick o => Nat.iter p.(listeners) (fun q => fst (copyToClipboard o q)) p
  | AutoscrollClick =>
      Nat.iter p.(listeners) autoscrollChange
        (set_autoscrollChecked (negb p.(autoscrollChecked)) p)
  | UserScroll y =>
      Nat.iter p.(listeners) scrollHandler (set_scrollTop (clamp_scrollTop p y) p)
  | Hidden => hidden p
  end.

Definition run (evs : list Event) (p : Page) : Page := fold_left step evs p.

Definition nlstr (s : string) : string := (s ++ String nl "")%string.

(** ** Chunks and stream-end signals carried by an event list *)

Definition chunk_of (e : Event) : list string :=
  match e with Message _ d => [d] | _ => [] end.

Definition chunks (evs : list Event) : list string := flat_map chunk_of evs.

Definition is_error (e : Event) : bool :=
  match e with Error _ => true | _ => false end.

Definition is_chunk (e : Event) : bool :=
  match e with Message _ _ => true | _ => false end.

(** Deliveries and pause/resume clicks only. *)
Definition chunk_or_pause (e : Event) : bool :=
  match e with Message _ _ | PauseClick => true | _ => false end.

(** Events of a live session: neither a new launch nor the modal hiding. *)
Definition in_session (e : Event) : bool :=
  match e with Launch _ | Hidden => false | _ => true end.

(** Chunks not yet rendered are only held while paused. *)
Definition pause_inv (p : Page) : Prop :=
  p.(isPaused) = false -> p.(messageBuffer) = [].

(** The part of the page that rendering and pausing leave alone. *)
Definition frame (p q : Page) : Prop :=
  q.(es) = p.(es) /\ q.(autoscroll) = p.(autoscroll) /\
  q.(streamEnded) = p.(streamEnded) /\ q.(reloadOnClose) = p.(reloadOnClose) /\
  q.(listeners) = p.(listeners) /\ q.(next_conn) = p.(next_conn) /\
  q.(live) = p.(live) /\ q.(closes) = p.(closes) /\ q.(status) = p.(status) /\
  q.(clientHeight) = p.(clientHeight).

Definition c7_trace : list Event :=
  [Launch "E"; Message 0 (nlstr "building"); Message 0 (nlstr "step 1/3");
   PauseClick; Message 0 (nlstr "step 2/3"); PauseClick; Error 0].

(** * Lemmas *)


Lemma frame_refl (p : Page) : frame p p.
Proof. unfold frame; repeat split. Qed.

Lemma frame_trans (p q r : Page) : frame p q -> frame q r -> frame p r.
Proof.
  unfold frame; intros (?&?&?&?&?&?&?&?&?&?) (?&?&?&?&?&?&?&?&?&?).
  repeat split; congruence.
Qed.

Lemma scrollToBottom_frame (p : Page) :
  frame p (scrollToBottom p) /\ (scrollToBottom p).(log) = p.(log) /\
  (scrollToBottom p).(messageBuffer) = p.(messageBuffer) /\
  (scrollToBottom p).(isPaused) = p.(isPaused) /\
  (scrollToBottom p).(effects) = p.(effects).
Proof. destruct p; repeat split. Qed.

Lemma appendMessage_spec (d : string) (p : Page) :
  frame p (appendMessage d p) /\ (appendMessage d p).(log) = p.(log) ++ [d] /\
  (appendMessage d p).(messageBuffer) = p.(messageBuffer) /\
  (appendMessage d p).(isPaused) = p.(isPaused) /\
  (appendMessage d p).(effects) = p.(effects) /\
  (appendMessage d p).(scrollTop) =
    (if p.(autoscroll) then clamp_scrollTop (set_log (p.(log) ++ [d]) p)
                              (scrollHeight (set_log (p.(log) ++ [d]) p))
     else p.(scrollTop)).
Proof.
  unfold appendMessage; destruct p as [es0 [|] ? ? ? ? ? ? ? ? ? ? ? ? ? ? ?];
    repeat split.
Qed.

Lemma drain_spec (l : list string) (p : Page) :
  p.(messageBuffer) = l ->
  frame p (drain (length l) p) /\
  (drain (length l) p).(log) = p.(log) ++ l /\
  (drain (length l) p).(messageBuffer) = [] /\
  (drain (length l) p).(isPaused) = p.(isPaused) /\
  (drain (length l) p).(effects) = p.(effects).
Proof.
  revert p; induction l as [|d l IH]; intros p Hb.
  - simpl. rewrite app_nil_r. split; [apply frame_refl|auto].
  - cbn [drain length]. rewrite Hb.
    destruct (appendMessage_spec d (set_messageBuffer l p)) as (Hf & Hl & Hm & Hp & He & _).
    destruct (IH (appendMessage d (set_messageBuffer l p))) as (Hf' & Hl' & Hm' & Hp' & He'); [exact Hm|].
    split; [|split; [|split; [|split]]].
    + eapply frame_trans; [|exact Hf'].
      eapply frame_trans; [|exact Hf]. destruct p; repeat split.
    + rewrite Hl', Hl. destruct p; simpl. rewrite <- app_assoc; reflexivity.
    + exact Hm'.
    + rewrite Hp', Hp. destruct p; reflexivity.
    + rewrite He', He. destruct p; reflexivity.
Qed.

Lemma togglePause_spec (p : Page) :
  frame p (togglePause p) /\
  (togglePause p).(isPaused) = negb p.(isPaused) /\
  (p.(isPaused) = false ->
     (togglePause p).(log) = p.(log) /\
     (togglePause p).(messageBuffer) = p.(messageBuffer)) /\
  (p.(isPaused) = true ->
     (togglePause p).(log) = p.(log) ++ p.(messageBuffer) /\
     (togglePause p).(messageBuffer) = []).
Proof.
  unfold togglePause.
  destruct (isPaused p) eqn:E.
  - cbn [negb]. cbv zeta.
    replace (isPaused (set_isPaused false p)) with false by (destruct p; reflexivity).
    set (q := set_pauseLabel "Pause" (set_isPaused false p)).
    destruct (drain_spec q.(messageBuffer) q eq_refl) as (Hf & Hl & Hm & Hp & _).
    split; [|split; [|split]].
    + eapply frame_trans; [|destruct (drain (length (messageBuffer q)) q); exact Hf].
      destruct p; repeat split.
    + destruct (drain (length (messageBuffer q)) q); simpl in *; congruence.
    + discriminate.
    + intros _. revert Hl Hm.
      destruct (drain (length (messageBuffer q)) q); simpl; intros -> ->.
      destruct p; split; reflexivity.
  - destruct p; simpl in *; subst; repeat split; discriminate.
Qed.

Lemma onmessage_spec (d : string) (p : Page) :
  frame p (onmessage d p) /\
  (onmessage d p).(isPaused) = p.(isPaused) /\
  (p.(isPaused) = true ->
     (onmessage d p).(log) = p.(log) /\
     (onmessage d p).(messageBuffer) = p.(messageBuffer) ++ [d]) /\
  (p.(isPaused) = false ->
     (onmessage d p).(log) = p.(log) ++ [d] /\
     (onmessage d p).(messageBuffer) = p.(messageBuffer)).
Proof.
  unfold onmessage. destruct (isPaused p) eqn:E.
  - destruct p; simpl in *; subst; repeat split; discriminate.
  - destruct (appendMessage_spec d p) as (Hf & Hl & Hm & Hp & _).
    split; [exact Hf|split; [congruence|split; [discriminate|intros _; split; assumption]]].
Qed.

Lemma iter_togglePause (n : nat) (p : Page) :
  pause_inv p ->
  pause_inv (Nat.iter n togglePause p) /\
  (Nat.iter n togglePause p).(log) ++ (Nat.iter n togglePause p).(messageBuffer) =
    p.(log) ++ p.(messageBuffer).
Proof.
  intros Hinv; induction n as [|n [IHi IHl]]; [split; [exact Hinv|reflexivity]|].
  rewrite Nat.iter_succ.
  set (q := Nat.iter n togglePause p) in *.
  destruct (togglePause_spec q) as (_ & Hp & Hoff & Hon).
  destruct (isPaused q) eqn:E.
  - destruct (Hon eq_refl) as [Hl Hm]. split.
    + intros _. exact Hm.
    + rewrite Hl, Hm, app_nil_r; exact IHl.
  - destruct (Hoff eq_refl) as [Hl Hm]. split.
    + unfold pause_inv; rewrite Hp; discriminate.
    + rewrite Hl, Hm; exact IHl.
Qed.

Lemma step_chunk_or_pause (p : Page) (e : Event) :
  chunk_or_pause e = true -> pause_inv p ->
  pause_inv (step p e) /\
  (step p e).(log) ++ (step p e).(messageBuffer) = p.(log) ++ p.(messageBuffer) ++ chunk_of e.
Proof.
  intros He Hinv; destruct e; try discriminate; cbn [step chunk_of].
  - destruct (onmessage_spec data p) as (_ & Hp & Hon & Hoff).
    destruct (isPaused p) eqn:E.
    + destruct (Hon eq_refl) as [Hl Hm]. split.
      * unfold pause_inv; rewrite Hp; discriminate.
      * rewrite Hl, Hm, app_assoc; reflexivity.
    + destruct (Hoff eq_refl) as [Hl Hm]. rewrite (Hinv E) in Hm |- *. split.
      * intros _; exact Hm.
      * rewrite Hl, Hm, !app_nil_r; reflexivity.
  - rewrite app_nil_r. apply iter_togglePause; exact Hinv.
Qed.

Lemma run_cons (e : Event) (evs : list Event) (p : Page) :
  run (e :: evs) p = run evs (step p e).
Proof. reflexivity. Qed.

Lemma run_chunks_unpaused (evs : list Event) (p : Page) :
  forallb is_chunk evs = true -> p.(isPaused) = false ->
  (run evs p).(isPaused) = false /\ (run evs p).(log) = p.(log) ++ chunks evs.
Proof.
  revert p; induction evs as [|e evs IH]; intros p Hc Hp.
  - simpl; rewrite app_nil_r; auto.
  - simpl in Hc; apply andb_prop in Hc as [He Hc].
    destruct e; try discriminate.
    rewrite run_cons; cbn [step chunks flat_map chunk_of].
    destruct (onmessage_spec data p) as (_ & Hp' & _ & Hoff).
    destruct (Hoff Hp) as [Hl _].
    destruct (IH (onmessage data p) Hc) as [IHp IHl]; [congruence|].
    split; [exact IHp|]. rewrite IHl, Hl, <- app_assoc; reflexivity.
Qed.

Lemma chunks_filter (evs : list Event) : chunks (filter is_chunk evs) = chunks evs.
Proof.
  induction evs as [|e evs IH]; [reflexivity|].
  destruct e; simpl; rewrite ?IH; reflexivity.
Qed.

Lemma forallb_filter_chunk (evs : list Event) : forallb is_chunk (filter is_chunk evs) = true.
Proof.
  induction evs as [|e evs IH]; [reflexivity|].
  destruct e; simpl; rewrite ?IH; reflexivity.
Qed.

Lemma run_chunk_or_pause (evs : list Event) (p : Page) :
  forallb chunk_or_pause evs = true -> pause_inv p ->
  pause_inv (run evs p) /\
  (run evs p).(log) ++ (run evs p).(messageBuffer) = p.(log) ++ p.(messageBuffer) ++ chunks evs.
Proof.
  revert p; induction evs as [|e evs IH]; intros p Hc Hinv.
  - simpl; rewrite app_nil_r; auto.
  - simpl in Hc; apply andb_prop in Hc as [He Hc].
    rewrite run_cons.
    destruct (step_chunk_or_pause p e He Hinv) as [Hi Hl].
    destruct (IH (step p e) Hc Hi) as [IHi IHl].
    split; [exact IHi|]. rewrite IHl, app_assoc, Hl.
    change (chunks (e :: evs)) with (chunk_of e ++ chunks evs).
    rewrite <- !app_assoc; reflexivity.
Qed.

Lemma iter_preserve (P : Page -> Prop) (f : Page -> Page) (n : nat) (p : Page) :
  (forall q, P q -> P (f q)) -> P p -> P (Nat.iter n f p).
Proof.
  intros Hf Hp; induction n as [|n IH]; [exact Hp|].
  rewrite Nat.iter_succ; apply Hf, IH.
Qed.

(** The session part of the page: connection, guard, closes, transcript
    and pending buffer. *)
Definition core (p : Page) :=
  (p.(es), p.(streamEnded), p.(closes), p.(log), p.(messageBuffer)).

Lemma core_iter (f : Page -> Page) (n : nat) (p : Page) :
  (forall q, core (f q) = core q) -> core (Nat.iter n f p) = core p.
Proof.
  intros Hf. apply (iter_preserve (fun q => core q = core p)); [|reflexivity].
  intros q Hq; rewrite Hf; exact Hq.
Qed.

Lemma copyToClipboard_state (o : ClipboardOutcome) (p : Page) :
  fst (copyToClipboard o p) =
    match o with
    | Granted => showToast "modalCopyToast" p
    | Denied r => add_effect (ConsoleError ("Failed to copy: " ++ r)) p
    end.
Proof. destruct o; reflexivity. Qed.

Lemma core_ui_steps (q : Page) :
  core (closeAndReload q) = core q /\
  (forall o, core (fst (copyToClipboard o q)) = core q) /\
  core (autoscrollChange q) = core q /\
  core (scrollHandler q) = core q /\
  core (onopen q) = core q.
Proof.
  split; [destruct q; reflexivity|].
  split; [intros o; rewrite copyToClipboard_state; destruct o, q; reflexivity|].
  split; [unfold autoscrollChange; destruct q as [? ? ? ? ? ? ? ? ? [|] ? ? ? ? ? ? ?];
          reflexivity|].
  split; [unfold scrollHandler; destruct (Bool.eqb _ _); destruct q; reflexivity|].
  destruct q; reflexivity.
Qed.

Section EndOnce.

(** A session whose connection is [c0], launched when the page had
    recorded the closes [cl]. *)
Variable c0 : nat.
Variable cl : list nat.

Definition end_inv (q : Page) : Prop :=
  q.(es) = (if q.(streamEnded) then None else Some c0) /\
  count_occ string_dec q.(log) stream_completed = (if q.(streamEnded) then 1 else 0) /\
  ~ In stream_completed q.(messageBuffer) /\
  q.(closes) = cl ++ (if q.(streamEnded) then [c0] else []).

Lemma count_app_nomark (l m : list string) :
  ~ In stream_completed m ->
  count_occ string_dec (l ++ m) stream_completed = count_occ string_dec l stream_completed.
Proof.
  intros Hm. rewrite count_occ_app.
  rewrite (proj1 (count_occ_not_In string_dec m stream_completed) Hm).
  apply Nat.add_0_r.
Qed.

Lemma end_inv_togglePause (q : Page) : end_inv q -> end_inv (togglePause q).
Proof.
  intros (He & Hc & Hb & Hcl).
  destruct (togglePause_spec q) as ((Hes & _ & Hse & _ & _ & _ & _ & Hcls & _) & _ & Hoff & Hon).
  unfold end_inv; rewrite Hes, Hse, Hcls.
  destruct (isPaused q) eqn:E.
  - destruct (Hon eq_refl) as [Hl Hm]. rewrite Hl, Hm, count_app_nomark by exact Hb.
    repeat split; auto.
  - destruct (Hoff eq_refl) as [Hl Hm]. rewrite Hl, Hm. repeat split; auto.
Qed.

Lemma end_inv_step (q : Page) (e : Event) :
  in_session e = true -> ~ In stream_completed (chunk_of e) -> end_inv q ->
  end_inv (step q e) /\ (step q e).(streamEnded) = q.(streamEnded) || is_error e.
Proof.
  intros Hs Hd Hi.
  destruct (core_ui_steps q) as (Hdone & Hcopy & Hauto & Hscroll & Hopen).
  assert (Hcore : forall r, core r = core q -> end_inv r /\ r.(streamEnded) = q.(streamEnded)).
  { intros r Hr. unfold core in Hr. injection Hr as H1 H2 H3 H4 H5.
    destruct Hi as (He & Hc & Hb & Hcl).
    unfold end_inv; rewrite H1, H2, H3, H4, H5. repeat split; auto. }
  destruct e as [u|c|c d|c| | |o| |y|]; try discriminate; cbn [step is_error];
    rewrite ?orb_false_r.
  - apply Hcore, Hopen.
  - destruct (onmessage_spec d q) as ((Hes & _ & Hse & _ & _ & _ & _ & Hcls & _) & _ & Hon & Hoff).
    destruct Hi as (He & Hc & Hb & Hcl).
    unfold end_inv; rewrite Hes, Hse, Hcls.
    assert (Hd' : ~ In stream_completed [d]) by exact Hd.
    destruct (isPaused q) eqn:E.
    + destruct (Hon eq_refl) as [Hl Hm]. rewrite Hl, Hm.
      repeat split; auto. rewrite in_app_iff; tauto.
    + destruct (Hoff eq_refl) as [Hl Hm]. rewrite Hl, Hm, count_app_nomark by exact Hd'.
      repeat split; auto.
  - rewrite orb_true_r. unfold onerror, handleStreamEnd.
    destruct Hi as (He & Hc & Hb & Hcl).
    destruct (streamEnded q) eqn:E.
    + destruct q; simpl in *; subst; repeat split; auto.
    + destruct q; simpl in *; subst. rewrite app_nil_r.
      unfold appendMessage; destruct autoscroll0; cbn;
        (split; [|reflexivity]); unfold end_inv; cbn;
        (split; [reflexivity|split; [|split; [exact Hb|reflexivity]]]);
        rewrite count_occ_app, Hc; cbn;
        destruct (string_dec stream_completed stream_completed); congruence.
  - split.
    + apply (iter_preserve end_inv); [exact end_inv_togglePause|exact Hi].
    + apply (iter_preserve (fun r => streamEnded r = streamEnded q)); [|reflexivity].
      intros r Hr. destruct (togglePause_spec r) as ((_ & _ & Hse & _) & _). congruence.
  - apply Hcore, core_iter. intros r; apply core_ui_steps.
  - apply Hcore, core_iter. intros r; apply core_ui_steps.
  - apply Hcore. rewrite core_iter by (intros r; apply core_ui_steps).
    destruct q; reflexivity.
  - apply Hcore. rewrite core_iter by (intros r; apply core_ui_steps).
    destruct q; reflexivity.
Qed.

End EndOnce.

Lemma end_inv_launch (p : Page) (url : string) :
  ~ In stream_completed p.(messageBuffer) ->
  end_inv p.(next_conn) p.(closes) (launch url p).
Proof. intros H; destruct p; repeat split; simpl; auto using app_nil_r. Qed.

Definition is_reload (e : Effect) : bool :=
  match e with PageReload => true | _ => false end.

(** How many times [location.reload()] has been called. *)
Definition reloads (l : list Effect) : nat := length (filter is_reload l).

Lemma reloads_app (l m : list Effect) : reloads (l ++ m) = reloads l + reloads m.
Proof. unfold reloads; rewrite filter_app, length_app; reflexivity. Qed.

Lemma iter_hidden (n : nat) (p : Page) :
  (Nat.iter n hiddenHandler p).(log) = p.(log) /\
  (Nat.iter n hiddenHandler p).(reloadOnClose) = p.(reloadOnClose) /\
  (Nat.iter n hiddenHandler p).(isPaused) = p.(isPaused) /\
  reloads (Nat.iter n hiddenHandler p).(effects) =
    reloads p.(effects) + (if p.(reloadOnClose) then n else 0) /\
  (n <> O -> (Nat.iter n hiddenHandler p).(es) = None /\
             (Nat.iter n hiddenHandler p).(messageBuffer) = []).
Proof.
  induction n as [|n (Hl & Hr & Hp & He & _)].
  - split; [reflexivity|split; [reflexivity|split; [reflexivity|split]]].
    + destruct (reloadOnClose p); simpl; lia.
    + intros H; exfalso; apply H; reflexivity.
  - rewrite Nat.iter_succ. set (q := Nat.iter n hiddenHandler p) in *.
    assert (Hq : (hiddenHandler q).(log) = q.(log) /\
                 (hiddenHandler q).(reloadOnClose) = q.(reloadOnClose) /\
                 (hiddenHandler q).(isPaused) = q.(isPaused) /\
                 reloads (hiddenHandler q).(effects) =
                   reloads q.(effects) + (if q.(reloadOnClose) then 1 else 0) /\
                 (hiddenHandler q).(es) = None /\ (hiddenHandler q).(messageBuffer) = []).
    { unfold hiddenHandler, cleanup, close_current.
      destruct q as [[c|] ? ? ? ? [|] ? ? ? ? ? ? ? ? ? ? ?]; cbn -[reloads];
        rewrite ?reloads_app; cbn; repeat split; try reflexivity; lia. }
    destruct Hq as (Hl' & Hr' & Hp' & He' & Hes & Hb).
    rewrite Hl', Hr', Hp', He', He, Hr.
    split; [exact Hl|split; [reflexivity|split; [exact Hp|split]]].
    + destruct (reloadOnClose p); lia.
    + intros _; split; assumption.
Qed.

Lemma hidden_spec (p : Page) :
  (1 <= p.(listeners))%nat ->
  (step p Hidden).(es) = None /\ (step p Hidden).(messageBuffer) = [] /\
  (step p Hidden).(log) = (if p.(reloadOnClose) then [] else p.(log)) /\
  (step p Hidden).(isPaused) = (if p.(reloadOnClose) then false else p.(isPaused)) /\
  reloads (step p Hidden).(effects) =
    reloads p.(effects) + (if p.(reloadOnClose) then p.(listeners) else 0).
Proof.
  intros Hn; cbn [step]; unfold hidden.
  destruct (listeners p) as [|m] eqn:E; [lia|].
  destruct (iter_hidden (S m) p) as (Hl & Hr & Hp & He & Hx).
  destruct (Hx ltac:(discriminate)) as [Hes Hb].
  rewrite Hr.
  destruct (reloadOnClose p); unfold reload; cbn; repeat split; auto.
Qed.

Lemma iter_closeAndReload (n : nat) (p : Page) :
  (Nat.iter n closeAndReload p).(reloadOnClose) = (if n then p.(reloadOnClose) else true) /\
  (Nat.iter n closeAndReload p).(listeners) = p.(listeners) /\
  (Nat.iter n closeAndReload p).(isPaused) = p.(isPaused) /\
  (Nat.iter n closeAndReload p).(effects) = p.(effects).
Proof.
  assert (Hinv : forall m, (Nat.iter m closeAndReload p).(listeners) = p.(listeners) /\
                           (Nat.iter m closeAndReload p).(isPaused) = p.(isPaused) /\
                           (Nat.iter m closeAndReload p).(effects) = p.(effects)).
  { intros m; apply (iter_preserve (fun q => q.(listeners) = p.(listeners) /\
                                            q.(isPaused) = p.(isPaused) /\
                                            q.(effects) = p.(effects)));
      [intros [] H; exact H|repeat split]. }
  split; [|apply Hinv].
  destruct n as [|n]; [reflexivity|].
  rewrite Nat.iter_succ; destruct (Nat.iter n closeAndReload p); reflexivity.
Qed.

Lemma scrollHandler_idem (r : Page) :
  scrollHandler (scrollHandler r) = scrollHandler r /\
  isAtBottom (scrollHandler r) = isAtBottom r.
Proof.
  assert (H : isAtBottom (scrollHandler r) = isAtBottom r /\
              (scrollHandler r).(autoscroll) = isAtBottom r).
  { unfold scrollHandler.
    destruct (Bool.eqb (isAtBottom r) (autoscroll r)) eqn:E.
    - apply eqb_prop in E. split; [reflexivity|symmetry; exact E].
    - destruct r; split; reflexivity. }
  destruct H as [H1 H2]. split; [|exact H1].
  unfold scrollHandler at 1; cbv zeta. rewrite H1, H2, eqb_reflx. reflexivity.
Qed.

Lemma iter_scrollHandler (n : nat) (r : Page) :
  Nat.iter (S n) scrollHandler r = scrollHandler r.
Proof.
  induction n as [|n IH]; [reflexivity|].
  rewrite Nat.iter_succ, IH. apply scrollHandler_idem.
Qed.

Lemma appends_not_autoscroll (ds : list string) (q : Page) :
  q.(autoscroll) = false ->
  (fold_left (fun r d => appendMessage d r) ds q).(scrollTop) = q.(scrollTop) /\
  (fold_left (fun r d => appendMessage d r) ds q).(autoscroll) = false.
Proof.
  revert q; induction ds as [|d ds IH]; intros q Hq; [split; auto|].
  cbn [fold_left].
  destruct (appendMessage_spec d q) as ((_ & Ha & _) & _ & _ & _ & _ & Ht).
  rewrite Hq in Ht.
  destruct (IH (appendMessage d q)) as [IHt IHa]; [congruence|].
  split; [congruence|exact IHa].
Qed.

Lemma run_paused_chunks (evs : list Event) (p : Page) :
  p.(isPaused) = true -> forallb is_chunk evs = true ->
  (run evs p).(isPaused) = true /\ (run evs p).(log) = p.(log) /\
  (run evs p).(messageBuffer) = p.(messageBuffer) ++ chunks evs.
Proof.
  revert p; induction evs as [|e evs IH]; intros p Hp Hc.
  - simpl; rewrite app_nil_r; auto.
  - simpl in Hc; apply andb_prop in Hc as [He Hc].
    destruct e; try discriminate.
    rewrite run_cons; cbn [step chunks flat_map chunk_of].
    destruct (onmessage_spec data p) as (_ & Hp' & Hon & _).
    destruct (Hon Hp) as [Hl Hm].
    destruct (IH (onmessage data p)) as (IHp & IHl & IHm); [congruence|exact Hc|].
    split; [exact IHp|split; [congruence|]].
    rewrite IHm, Hm, <- app_assoc; reflexivity.
Qed.

(** * Claims *)

(** C2 (order preservation under pause/resume).  For every delivery of
    chunks interleaved with any pause/resume clicks, starting from a page
    where chunks are only held while paused: the transcript followed by the
    pending buffer is the old transcript and buffer followed by the chunks in
    arrival order (so each chunk is held or rendered exactly once, in order);
    a chunk delivered while paused is enqueued and not rendered; and when the
    stream is not paused at the start and at the end, the transcript equals
    the transcript of the same deliveries with no pause clicks at all. *)
Theorem C2_order_preserved (p : Page) (evs : list Event) :
  pause_inv p -> forallb chunk_or_pause evs = true ->
  pause_inv (run evs p) /\
  (run evs p).(log) ++ (run evs p).(messageBuffer) =
    p.(log) ++ p.(messageBuffer) ++ chunks evs /\
  (forall (q : Page) (c : nat) (d : string), q.(isPaused) = true ->
     (step q (Message c d)).(log) = q.(log) /\
     (step q (Message c d)).(messageBuffer) = q.(messageBuffer) ++ [d]) /\
  (p.(isPaused) = false -> (run evs p).(isPaused) = false ->
     (run evs p).(log) = (run (filter is_chunk evs) p).(log) /\
     (run (filter is_chunk evs) p).(log) = p.(log) ++ chunks evs).
Proof.
  intros Hinv Hc.
  destruct (run_chunk_or_pause evs p Hc Hinv) as [Hi Hl].
  split; [exact Hi|split; [exact Hl|split]].
  - intros q c d Hq. cbn [step].
    destruct (onmessage_spec d q) as (_ & _ & Hon & _). exact (Hon Hq).
  - intros Hp Hq.
    destruct (run_chunks_unpaused (filter is_chunk evs) p (forallb_filter_chunk evs) Hp)
      as [_ Hf].
    rewrite chunks_filter in Hf.
    split; [|exact Hf]. rewrite Hf.
    rewrite (Hi Hq), (Hinv Hp) in Hl. rewrite app_nil_r in Hl. exact Hl.
Qed.

Lemma C2_order_preserved_witness :
  pause_inv (launch "E" initial_page) /\
  forallb chunk_or_pause [Message 0 "a"; PauseClick; Message 0 "b"; PauseClick] = true /\
  (run [Message 0 "a"; PauseClick; Message 0 "b"; PauseClick] (launch "E" initial_page)).(log)
    = ["a"; "b"]%string.
Proof.
  split; [intros _; reflexivity|split; [reflexivity|]].
  destruct (C2_order_preserved (launch "E" initial_page)
              [Message 0 "a"; PauseClick; Message 0 "b"; PauseClick]
              (fun _ => eq_refl) eq_refl) as (_ & _ & _ & H).
  destruct (H eq_refl eq_refl) as [-> ->]. reflexivity.
Defined.

Lemma run_end_inv (c0 : nat) (cl : list nat) (evs : list Event) (q : Page) :
  forallb in_session evs = true -> ~ In stream_completed (chunks evs) ->
  end_inv c0 cl q ->
  end_inv c0 cl (run evs q) /\
  (run evs q).(streamEnded) = q.(streamEnded) || existsb is_error evs.
Proof.
  revert q; induction evs as [|e evs IH]; intros q Hs Hd Hi.
  - simpl; rewrite orb_false_r; auto.
  - simpl in Hs; apply andb_prop in Hs as [He Hs].
    change (chunks (e :: evs)) with (chunk_of e ++ chunks evs) in Hd.
    rewrite in_app_iff in Hd.
    destruct (end_inv_step c0 cl q e He (fun H => Hd (or_introl H)) Hi) as [Hi' Hse].
    rewrite run_cons.
    destruct (IH (step q e) Hs (fun H => Hd (or_intror H)) Hi') as [IHi IHse].
    split; [exact IHi|]. rewrite IHse, Hse; simpl; symmetry; apply orb_assoc.
Qed.

(** C1 (at-most-once completion).  After [launch url p], whatever events
    of the live session follow (chunks, pause/resume, clicks, scrolls, and
    any number of transport errors from any connection), as long as no
    delivered chunk and no chunk held over in the buffer is itself the
    completion text: the "Stream completed" marker is in the transcript
    exactly once if a terminal signal came and not at all otherwise; the
    session's connection [p.(next_conn)] is closed exactly once in that case
    and not at all otherwise; the guard [streamEnded] is true exactly when a
    terminal signal came; and [handleStreamEnd] on an ended session changes
    nothing. *)
Theorem C1_stream_end_once (p : Page) (url : string) (evs : list Event) :
  forallb in_session evs = true ->
  ~ In stream_completed p.(messageBuffer) ->
  ~ In stream_completed (chunks evs) ->
  count_occ string_dec (run evs (launch url p)).(log) stream_completed =
    (if existsb is_error evs then 1 else 0) /\
  (run evs (launch url p)).(closes) =
    p.(closes) ++ (if existsb is_error evs then [p.(next_conn)] else []) /\
  (run evs (launch url p)).(streamEnded) = existsb is_error evs /\
  (forall r : Page, r.(streamEnded) = true -> handleStreamEnd r = r).
Proof.
  intros Hs Hb Hd.
  destruct (run_end_inv p.(next_conn) p.(closes) evs (launch url p) Hs Hd
              (end_inv_launch p url Hb)) as [(_ & Hc & _ & Hcl) Hse].
  assert (Hse' : (run evs (launch url p)).(streamEnded) = existsb is_error evs)
    by (rewrite Hse; destruct p; reflexivity).
  rewrite Hse' in Hc, Hcl.
  split; [exact Hc|split; [exact Hcl|split; [exact Hse'|]]].
  intros r Hr; unfold handleStreamEnd; rewrite Hr; reflexivity.
Qed.

Lemma C1_stream_end_once_witness :
  count_occ string_dec
    (run [Message 0 "x"; Error 0; Error 0; PauseClick; Error 0]
         (launch "E" initial_page)).(log) stream_completed = 1.
Proof.
  destruct (C1_stream_end_once initial_page "E" [Message 0 "x"; Error 0; Error 0; PauseClick; Error 0]
              eq_refl (fun H => H)) as [H _].
  - simpl. intros [H|H]; [discriminate|exact H].
  - exact H.
Defined.

(** C7 (example scenario).  Launch with endpoint "E"; deliver
    "building\n" and "step 1/3\n"; pause; deliver "step 2/3\n"; resume;
    terminal signal: the transcript is the three chunks then the completion
    marker, the status is "Completed", the guard is set and a reload on close
    is armed. *)
Theorem C7_example_trace :
  (run c7_trace initial_page).(log) =
    [nlstr "building"; nlstr "step 1/3"; nlstr "step 2/3"; stream_completed] /\
  (run c7_trace initial_page).(status) = "Completed"%string /\
  (run c7_trace initial_page).(streamEnded) = true /\
  (run c7_trace initial_page).(reloadOnClose) = true.
Proof. repeat split; reflexivity. Qed.

(** C3 (relaunch and the prior connection), as the code has it: [launch]
    opens a new EventSource and overwrites [this.es] without closing the old
    one, so every connection live before stays live and nothing is closed;
    after two launches two connections are live, and a chunk from the first
    is appended to the second session's transcript. *)
Theorem C3_launch_keeps_prior_connection (p : Page) (url : string) :
  (launch url p).(live) = p.(live) ++ [p.(next_conn)] /\
  (launch url p).(closes) = p.(closes) /\
  (launch url p).(es) = Some p.(next_conn) /\
  (run [Launch "u1"; Launch "u2"] initial_page).(live) = [0; 1] /\
  (run [Launch "u1"; Launch "u2"; Message 0 "old"] initial_page).(log) = ["old"%string].
Proof. destruct p; repeat split; reflexivity. Qed.

(** C5 (relaunch resets state).  [launch] empties the transcript, clears
    [streamEnded] and [reloadOnClose], shows "Connecting..." and points [es]
    at a new connection, but its reset block leaves [messageBuffer] as it
    is, whereas its sibling [cleanup] empties it.  Launched again while the
    first session is live and paused (the double launch of C3), the chunks
    held from the first session stay pending and are rendered into the new
    session's transcript when the user resumes. *)
Theorem C5_launch_keeps_buffer (p : Page) (url : string) :
  (launch url p).(log) = [] /\
  (launch url p).(streamEnded) = false /\
  (launch url p).(reloadOnClose) = false /\
  (launch url p).(status) = "Connecting..."%string /\
  (launch url p).(es) = Some p.(next_conn) /\
  (launch url p).(messageBuffer) = p.(messageBuffer) /\
  (cleanup p).(messageBuffer) = [] /\
  (launch "u2" (run [Launch "u1"; PauseClick; Message 0 "old"] initial_page)).(messageBuffer)
    = ["old"%string] /\
  (run [Launch "u1"; PauseClick; Message 0 "old"; Launch "u2"; PauseClick] initial_page).(log)
    = ["old"%string].
Proof.
  destruct p as [[c|] ? ? ? ? ? ? ? ? ? ? ? ? ? ? ? ?]; repeat split; reflexivity.
Qed.

(** C8 (clipboard failure).  [copyToClipboard] always completes normally:
    a denied write is caught and reported by one console error, a granted
    write shows the copy toast; nothing else of the page changes, and no
    alert is raised. *)
Theorem C8_copy_never_throws (p : Page) (o : ClipboardOutcome) :
  snd (copyToClipboard o p) = Normal tt /\
  fst (copyToClipboard o p) =
    add_effect (match o with
                | Granted => ShowToast "modalCopyToast"
                | Denied r => ConsoleError ("Failed to copy: " ++ r)
                end) p /\
  (forall m, fst (copyToClipboard o p) <> add_effect (Alert m) p).
Proof.
  destruct o; (split; [reflexivity|split; [reflexivity|]]);
    intros m; destruct p; unfold add_effect, showToast; cbn;
    intros H; injection H; intros Heq; apply app_inv_head in Heq; discriminate.
Qed.

(** C4, the claim as stated: dismissing before completion leaves
    [reloadOnClose] as it was.  Right after a launch ([reloadOnClose] false,
    stream not ended), the Done button sets it to true and the hidden modal
    then reloads the page. *)
Lemma C4_dismiss_keeps_reload_counterexample :
  (launch "E" initial_page).(streamEnded) = false /\
  (launch "E" initial_page).(reloadOnClose) = false /\
  (step (launch "E" initial_page) DoneClick).(reloadOnClose) = true /\
  reloads (step (step (launch "E" initial_page) DoneClick) Hidden).(effects) = 1.
Proof. repeat split; reflexivity. Qed.

(** C4, amended.  The Done button ([closeAndReload]) sets [reloadOnClose]
    to true before hiding the modal, whether or not the stream has
    completed; the [hidden.bs.modal] listener reloads the page exactly when
    [reloadOnClose] is true (once per registered listener), so a dismissal
    through Done always reloads the page. *)
Theorem C4_done_forces_reload (p : Page) :
  (1 <= p.(listeners))%nat ->
  (step p DoneClick).(reloadOnClose) = true /\
  reloads (step p Hidden).(effects) =
    reloads p.(effects) + (if p.(reloadOnClose) then p.(listeners) else 0) /\
  reloads (step (step p DoneClick) Hidden).(effects) = reloads p.(effects) + p.(listeners).
Proof.
  intros Hn.
  destruct (iter_closeAndReload (listeners p) p) as (Hr & Hl & _ & He).
  assert (Hr' : (step p DoneClick).(reloadOnClose) = true).
  { cbn [step]. rewrite Hr. destruct (listeners p); [lia|reflexivity]. }
  split; [exact Hr'|split].
  - apply hidden_spec; exact Hn.
  - destruct (hidden_spec (step p DoneClick)) as (_ & _ & _ & _ & H).
    + cbn [step]; rewrite Hl; exact Hn.
    + rewrite H, Hr'. cbn [step]. rewrite He, Hl. reflexivity.
Qed.

Lemma C4_done_forces_reload_witness :
  (1 <= (launch "E" initial_page).(listeners))%nat /\
  (step (launch "E" initial_page) DoneClick).(reloadOnClose) = true.
Proof.
  split; [cbn; lia|].
  apply (C4_done_forces_reload (launch "E" initial_page)). cbn; lia.
Defined.

(** C6 (autoscroll self-correction).  On a manual scroll to [y] (with the
    console's listeners registered) the view moves to [y] within the
    scrollable range; [autoscroll] becomes the at-bottom test (5 px
    tolerance) of the new position, and the checkbox is resynced to it
    exactly when that value differed from [autoscroll]; every append scrolls
    to the bottom when [autoscroll] is on and leaves [scrollTop] alone when
    it is off, so after scrolling away further chunks never move the view. *)
Theorem C6_autoscroll_follows_scroll (p : Page) (y : Z) (ds : list string) :
  (1 <= p.(listeners))%nat ->
  (step p (UserScroll y)).(scrollTop) = clamp_scrollTop p y /\
  (step p (UserScroll y)).(log) = p.(log) /\
  (step p (UserScroll y)).(autoscroll) = isAtBottom (step p (UserScroll y)) /\
  (step p (UserScroll y)).(autoscrollChecked) =
    (if Bool.eqb (isAtBottom (step p (UserScroll y))) p.(autoscroll)
     then p.(autoscrollChecked) else isAtBottom (step p (UserScroll y))) /\
  (forall (r : Page) (d : string),
     (appendMessage d r).(scrollTop) =
       (if r.(autoscroll) then clamp_scrollTop (set_log (r.(log) ++ [d]) r)
                                 (scrollHeight (set_log (r.(log) ++ [d]) r))
        else r.(scrollTop))) /\
  (isAtBottom (step p (UserScroll y)) = false ->
     (fold_left (fun r d => appendMessage d r) ds (step p (UserScroll y))).(scrollTop) =
       clamp_scrollTop p y).
Proof.
  intros Hn.
  assert (Hs : step p (UserScroll y) =
               scrollHandler (set_scrollTop (clamp_scrollTop p y) p)).
  { cbn [step]. destruct (listeners p) as [|m]; [lia|]. apply iter_scrollHandler. }
  rewrite Hs.
  set (q := set_scrollTop (clamp_scrollTop p y) p).
  destruct (scrollHandler_idem q) as [_ Hb].
  assert (Hq : (scrollHandler q).(scrollTop) = clamp_scrollTop p y /\
               (scrollHandler q).(log) = p.(log) /\
               (scrollHandler q).(autoscroll) = isAtBottom q /\
               (scrollHandler q).(autoscrollChecked) =
                 (if Bool.eqb (isAtBottom q) p.(autoscroll)
                  then p.(autoscrollChecked) else isAtBottom q)).
  { unfold scrollHandler.
    replace (autoscroll q) with (autoscroll p) by (destruct p; reflexivity).
    destruct (Bool.eqb (isAtBottom q) (autoscroll p)) eqn:E.
    - apply eqb_prop in E. subst q; destruct p; cbn in *; repeat split; congruence.
    - subst q; destruct p; repeat split. }
  destruct Hq as (Ht & Hl & Ha & Hc).
  rewrite Hb. split; [exact Ht|split; [exact Hl|split; [exact Ha|split; [exact Hc|split]]]].
  - intros r d. apply appendMessage_spec.
  - intros Hf. rewrite <- Ht. apply appends_not_autoscroll. congruence.
Qed.

Lemma C6_autoscroll_follows_scroll_witness :
  (1 <= (launch "E" initial_page).(listeners))%nat /\
  (step (launch "E" initial_page) (UserScroll 0)).(autoscroll) = true.
Proof.
  split; [cbn; lia|].
  destruct (C6_autoscroll_follows_scroll (launch "E" initial_page) 0 []) as (_ & _ & H & _).
  - cbn; lia.
  - rewrite H. vm_compute. reflexivity.
Defined.

(** C9, the claim as stated: a session dismissed while paused hands its
    pause on to the next launch.  Pausing, then dismissing with Done, then
    launching again: the Done path reloads the page, and the new instance
    starts unpaused. *)
Lemma C9_pause_carried_counterexample :
  (run [Launch "u1"; PauseClick] initial_page).(isPaused) = true /\
  (run [Launch "u1"; PauseClick; DoneClick; Hidden; Launch "u2"] initial_page).(isPaused)
    = false.
Proof. split; reflexivity. Qed.

(** C9, amended.  Neither [launch] nor [cleanup] resets [isPaused], nor
    does hiding the modal when it does not reload the page; so when
    [launch] runs while [isPaused] is true (no page reload since the pause),
    every chunk of the new stream is enqueued and none is rendered until
    [togglePause] runs.  Dismissal through Done always reloads the page,
    which starts a fresh, unpaused instance. *)
Theorem C9_pause_survives_relaunch (p : Page) (url : string) (evs : list Event) :
  (1 <= p.(listeners))%nat ->
  (launch url p).(isPaused) = p.(isPaused) /\
  (cleanup p).(isPaused) = p.(isPaused) /\
  (p.(reloadOnClose) = false -> (step p Hidden).(isPaused) = p.(isPaused)) /\
  (p.(isPaused) = true -> forallb is_chunk evs = true ->
     (run evs (launch url p)).(isPaused) = true /\
     (run evs (launch url p)).(log) = [] /\
     (run evs (launch url p)).(messageBuffer) = p.(messageBuffer) ++ chunks evs) /\
  (step (step p DoneClick) Hidden).(isPaused) = false.
Proof.
  intros Hn.
  split; [destruct p; reflexivity|split; [destruct p as [[c|] ? ? ? ? ? ? ? ? ? ? ? ? ? ? ? ?]; reflexivity|split]].
  - intros Hr. destruct (hidden_spec p Hn) as (_ & _ & _ & H & _). rewrite H, Hr. reflexivity.
  - split.
    + intros Hp Hc.
      destruct (run_paused_chunks evs (launch url p)) as (H1 & H2 & H3);
        [destruct p; exact Hp|exact Hc|].
      split; [exact H1|split; [rewrite H2; destruct p; reflexivity|]].
      rewrite H3; destruct p; reflexivity.
    + destruct (iter_closeAndReload (listeners p) p) as (Hr & Hl & _ & _).
      destruct (hidden_spec (step p DoneClick)) as (_ & _ & _ & H & _).
      * cbn [step]; rewrite Hl; exact Hn.
      * rewrite H. cbn [step]. rewrite Hr. destruct (listeners p); [lia|reflexivity].
Qed.

Lemma C9_pause_survives_relaunch_witness :
  (run [Message 1 "x"] (launch "u2" (run [Launch "u1"; PauseClick] initial_page))).(log) = [] /\
  (run [Message 1 "x"] (launch "u2" (run [Launch "u1"; PauseClick] initial_page))).(messageBuffer)
    = ["x"%string].
Proof.
  destruct (C9_pause_survives_relaunch (run [Launch "u1"; PauseClick] initial_page) "u2"
              [Message 1 "x"]) as (_ & _ & _ & H & _).
  - cbn; lia.
  - destruct (H eq_refl eq_refl) as (_ & H2 & H3). split; [exact H2|rewrite H3; reflexivity].
Defined.

(** C10 (dismissal discards held chunks).  [cleanup] closes the connection
    and empties the pending buffer without rendering it; when the modal is
    hidden, the buffer is emptied and the transcript is either left exactly
    as it was (no reload) or gone with the page (reload), so chunks held
    while paused are never appended. *)
Theorem C10_hidden_discards_buffer (p : Page) :
  (1 <= p.(listeners))%nat ->
  (cleanup p).(log) = p.(log) /\ (cleanup p).(messageBuffer) = [] /\
  (cleanup p).(es) = None /\
  (step p Hidden).(messageBuffer) = [] /\
  (step p Hidden).(log) = (if p.(reloadOnClose) then [] else p.(log)) /\
  (step p Hidden).(es) = None.
Proof.
  intros Hn.
  destruct (hidden_spec p Hn) as (He & Hb & Hl & _).
  split; [destruct p as [[c|] ? ? ? ? ? ? ? ? ? ? ? ? ? ? ? ?]; reflexivity|].
  split; [destruct p as [[c|] ? ? ? ? ? ? ? ? ? ? ? ? ? ? ? ?]; reflexivity|].
  split; [destruct p as [[c|] ? ? ? ? ? ? ? ? ? ? ? ? ? ? ? ?]; reflexivity|].
  repeat split; assumption.
Qed.

Lemma C10_hidden_discards_buffer_witness :
  (step (run [Launch "u1"; PauseClick; Message 0 "held"] initial_page) Hidden).(messageBuffer) = [] /\
  (step (run [Launch "u1"; PauseClick; Message 0 "held"] initial_page) Hidden).(log) = [].
Proof.
  destruct (C10_hidden_discards_buffer (run [Launch "u1"; PauseClick; Message 0 "held"] initial_page))
    as (_ & _ & _ & H1 & H2 & _).
  - cbn; lia.
  - split; [exact H1|rewrite H2; reflexivity].
Defined.

(** * The rest of the page scripts

    The functions of app/static/js/main.js around [TerminalModal] (service
    icons, the service toggle requests, the animated launch button) and the
    page scripts that call into it: the service deletion confirmation and
    [addServiceIcons] of the services page, and the container removal
    confirmation of containers.js with the [refreshData] it schedules. *)

(** ** String helpers: the JavaScript string methods the scripts use *)

(** A double quote, for the HTML and CSS the scripts build. *)
Definition dq : string := String (ascii_of_nat 34) EmptyString.

Fixpoint has_char (c : ascii) (s : string) : bool :=
  match s with
  | EmptyString => false
  | String x s' => Ascii.eqb x c || has_char c s'
  end.

(** [s.split(c)] for a one-character separator [c]. *)
Fixpoint split_on (c : ascii) (s : string) : list string :=
  match s with
  | EmptyString => [EmptyString]
  | String x s' =>
      let rest := split_on c s' in
      if Ascii.eqb x c then EmptyString :: rest
      else match rest with
           | r :: rs => String x r :: rs
           | [] => [String x EmptyString]
           end
  end.

(** [s.split(c, limit)] *)
Definition js_split (s : string) (c : ascii) (limit : nat) : list string :=
  firstn limit (split_on c s).

(** [`${v}`] of a string that may be [undefined] ([None]). *)
Definition js_undefined_string (v : option string) : string :=
  match v with Some s => s | None => "undefined" end.

(** [`${v}`] of a string that may be [null] ([None]). *)
Definition js_null_string (v : option string) : string :=
  match v with Some s => s | None => "null" end.

(** Truthiness of a string that may be [null]: [null] and [''] are falsy. *)
Definition js_truthy (v : option string) : bool :=
  match v with Some s => negb (String.eqb s "") | None => false end.

(** [`${n}`] of a non-negative integer. *)
Fixpoint uint_to_string (u : Decimal.uint) : string :=
  match u with
  | Decimal.Nil => EmptyString
  | Decimal.D0 u => String "0" (uint_to_string u)
  | Decimal.D1 u => String "1" (uint_to_string u)
  | Decimal.D2 u => String "2" (uint_to_string u)
  | Decimal.D3 u => String "3" (uint_to_string u)
  | Decimal.D4 u => String "4" (uint_to_string u)
  | Decimal.D5 u => String "5" (uint_to_string u)
  | Decimal.D6 u => String "6" (uint_to_string u)
  | Decimal.D7 u => String "7" (uint_to_string u)
  | Decimal.D8 u => String "8" (uint_to_string u)
  | Decimal.D9 u => String "9" (uint_to_string u)
  end.

Definition string_of_nat (n : nat) : string := uint_to_string (Nat.to_uint n).

(** ** [extractIconFromLabels] *)

(** The [labels] argument: an array of label strings, or anything that
    [Array.isArray] rejects ([undefined], an object, ...). *)
Inductive JsLabels :=
| LabelArray (labels : list string)
| NotArray.

(** The [for ... of] loop; [label.split('=', 2)[1]] is [undefined]
    ([None]) when the list has no second element. *)
Fixpoint find_icon_label (labels : list string) : option string :=
  match labels with
  | [] => None
  | label :: rest =>
      if prefix "homepage.icon=" label
      then nth_error (js_split label "=" 2) 1
      else find_icon_label rest
  end.

(** [null] is [None]. *)
Definition extractIconFromLabels (labels : JsLabels) : option string :=
  match labels with
  | NotArray => None
  | LabelArray l => find_icon_label l
  end.

(** ** [createServiceIcon] and [createFallbackIcon]

    The element returned, by the attributes and styles the functions set
    that depend on their arguments (the background gradient and the
    max-width/max-height/flex-shrink styles are the same constants on every
    element and are left out). *)
Record IconElement := mkIcon {
  icon_classes : list string;            (* className, then classList.add *)
  icon_type : string;                    (* data-icon-type *)
  icon_name : string;                    (* data-icon-name *)
  icon_size : nat;                       (* style.width = style.height = `${size}px` *)
  icon_mask : option string;             (* style.mask *)
  icon_webkitMask : option string;       (* style.webkitMask *)
  icon_img : option (string * string)    (* child <img>: alt and src; its onerror swaps in the fallback *)
}.

Definition mask_value (path : string) : string :=
  ("url(" ++ dq ++ path ++ dq ++ ") center center / contain no-repeat")%string.

Definition createFallbackIcon (size : nat) : IconElement :=
  mkIcon ["mdi-icon"%string] "mdi" "application" size
    (Some (mask_value "/static/svg/material-design-icons/application.svg"))
    (Some (mask_value "/static/svg/material-design-icons/application.svg"))
    None.

(** [iconName] is a string or [null]/[undefined] ([None]). *)
Definition createServiceIcon (iconName : option string) (size : nat) : IconElement :=
  match iconName with
  | None => createFallbackIcon size
  | Some n =>
      if String.eqb n "" then createFallbackIcon size
      else if prefix "mdi-" n then
        let mdiIconName := substring 4 (String.length n - 4) n in
        mkIcon ["mdi-icon"%string] "mdi" mdiIconName size
          (Some (mask_value ("/svg/" ++ mdiIconName ++ ".svg")))
          (Some (mask_value ("/static/svg/material-design-icons/" ++ mdiIconName ++ ".svg")))
          None
      else
        mkIcon ["dashboard-icon"%string] "dashboard" n size None None
          (Some ((n ++ " logo")%string, ("/static/png/dashboard-icons/" ++ n ++ ".png")%string))
  end.

(** [img.onerror]: the image of a dashboard icon failed to load; the
    handler warns and replaces the element by [createFallbackIcon(size)].
    An element without image has no such handler.  Returns the element now
    in the document and the console warning. *)
Definition iconImageError (e : IconElement) : IconElement * option string :=
  match e.(icon_img) with
  | Some _ => (createFallbackIcon e.(icon_size),
               Some ("Dashboard icon not found: " ++ e.(icon_name))%string)
  | None => (e, None)
  end.

(** [classList.add(c)] *)
Definition add_class (c : string) (e : IconElement) : IconElement :=
  if existsb (String.eqb c) e.(icon_classes) then e
  else mkIcon (e.(icon_classes) ++ [c]) e.(icon_type) e.(icon_name) e.(icon_size)
         e.(icon_mask) e.(icon_webkitMask) e.(icon_img).

(** ** [addServiceIcons] (services page)

    [toLowerCase] is the browser's [String.prototype.toLowerCase]; [card]
    answers the two DOM queries for a lowercased package name: [None] when
    there is no [.card-header] for it, [Some b] when there is one, [b]
    telling whether it holds a [.d-flex] element. *)
Section AddServiceIcons.
Variable toLowerCase : string -> string.
Variable card : string -> option bool.

(** [extractIconFromLabels(packageData.labels) || packageName.toLowerCase()] *)
Definition serviceIconName (labels : JsLabels) (packageName : string) : string :=
  match extractIconFromLabels labels with
  | Some v => if String.eqb v "" then toLowerCase packageName else v
  | None => toLowerCase packageName
  end.


End AddServiceIcons.

(** ** [toggleService], [toggleServiceAccessControl],
    [toggleServiceAutostart], [toggleServiceAutoupdate]

    The four functions differ only in the last segment of the URL. *)

(** What the parsed JSON body is: [null], or an object with a [success]
    field (by its truthiness) and an [error] field ([None]: undefined). *)
Inductive JsonBody :=
| JsonNull
| JsonObject (success : bool) (error : option string).

(** How the request goes: [fetch] rejects (network failure),
    [response.json()] rejects (the body is not JSON), or a JSON body. *)
Inductive FetchOutcome :=
| FetchRejected
| ResponseNotJson
| ResponseJson (body : JsonBody).

Record Request := mkRequest {
  req_method : string;
  req_url : string;
  req_headers : list (string * string)
}.

(** The request sent and the page after the promise chain has settled.
    [console.error('Error:', error)] is recorded by its label; reading
    [data.success] on [null] throws a TypeError, which the [.catch] gets. *)
Definition serviceAction (action serviceId : string) (o : FetchOutcome) (p : Page)
  : Request * Page :=
  (mkRequest "POST" ("/services/action/" ++ serviceId ++ "/" ++ action)
     [("Content-Type"%string, "application/json"%string)],
   let catch p := add_effect (Alert "Network error occurred") (add_effect (ConsoleError "Error:") p) in
   match o with
   | FetchRejected => catch p
   | ResponseNotJson => catch p
   | ResponseJson JsonNull => catch p
   | ResponseJson (JsonObject true _) => reload (add_effect PageReload p)
   | ResponseJson (JsonObject false e) =>
       add_effect (Alert ("Error: " ++ js_undefined_string e)) p
   end).

Definition toggleService := serviceAction "toggle".
Definition toggleServiceAccessControl := serviceAction "toggle_access".
Definition toggleServiceAutostart := serviceAction "toggle_autostart".
Definition toggleServiceAutoupdate := serviceAction "toggle_autoupdate".

(** ** The global [launchTerminalModal]

    The page with the stream URLs handed to [terminalModal.launch], in
    call order ([launch] itself keeps no trace of its URL in the page). *)
Record Term := mkTerm {
  tpage : Page;
  launched : list string
}.

Definition launchTerminalModal (streamUrl : string) (t : Term) : Term :=
  mkTerm (launch streamUrl t.(tpage)) (t.(launched) ++ [streamUrl]).

(** ** [launchTerminalWithButtonAnimation] *)

Record Button := mkButton {
  disabled : bool;
  innerHTML : string
}.

Definition spinner_html (label : string) : string :=
  ("<i class=" ++ dq ++ "spinner-border spinner-border-sm me-2" ++ dq ++ "></i>" ++ label)%string.

(** The button, the 2-second timers it has pending (each holding the
    [originalContent] it restores; equal delays fire in the order they were
    set) and the terminal. *)
Record Animated := mkAnimated {
  a_button : Button;
  a_timers : list string;
  a_term : Term
}.

(** [withButton] tells whether [buttonElement] is given (truthy). *)
Definition launchTerminalWithButtonAnimation (streamUrl : string) (withButton : bool)
  (s : Animated) : Animated :=
  if withButton then
    let originalContent := s.(a_button).(innerHTML) in
    mkAnimated (mkButton false (spinner_html "Processing..."))
      (s.(a_timers) ++ [originalContent])
      (launchTerminalModal streamUrl s.(a_term))
  else mkAnimated s.(a_button) s.(a_timers) (launchTerminalModal streamUrl s.(a_term)).

(** The oldest pending timer fires: [buttonElement.innerHTML = originalContent]. *)
Definition animationTimer (s : Animated) : Animated :=
  match s.(a_timers) with
  | [] => s
  | originalContent :: rest =>
      mkAnimated (mkButton s.(a_button).(disabled) originalContent) rest s.(a_term)
  end.

(** ** Service deletion (services page) *)

Record DeleteUI := mkDeleteUI {
  d_term : Term;
  terminalModalLabel : option string;   (* #terminalModalLabel innerHTML; None: no such element *)
  deleteServiceUrl : option string;     (* null: None *)
  deleteServiceName : option string;    (* null: None *)
  deleteServiceModalLabel : string;     (* #deleteServiceModalLabel innerHTML *)
  deleteModalShown : bool               (* #deleteServiceModal *)
}.

Definition icon_html (cls : string) : string :=
  ("<i class=" ++ dq ++ cls ++ dq ++ "></i>")%string.

Definition serviceActionWithTerminal (streamUrl actionTitle : string)
  (modalTitle : option string) (t : Term) : option string * Term :=
  (match modalTitle with
   | Some _ => Some (icon_html "bi bi-terminal me-2" ++ actionTitle)%string
   | None => None
   end,
   launchTerminalModal streamUrl t).

Definition showDeleteConfirmation (serviceId serviceName deleteUrl : string) (s : DeleteUI)
  : DeleteUI :=
  mkDeleteUI s.(d_term) s.(terminalModalLabel) (Some deleteUrl) (Some serviceName)
    (icon_html "bi bi-exclamation-triangle-fill text-warning me-2" ++
     "Delete " ++ dq ++ serviceName ++ dq)%string
    true.

(** The click listener of #confirmDeleteBtn. *)
Definition confirmDeleteClick (s : DeleteUI) : DeleteUI :=
  match s.(deleteServiceUrl) with
  | Some url =>
      if String.eqb url "" then s else
      let '(label, t) :=
        serviceActionWithTerminal url
          (js_null_string s.(deleteServiceName) ++ " - Delete Service")
          s.(terminalModalLabel) s.(d_term) in
      mkDeleteUI t label None None s.(deleteServiceModalLabel) false
  | None => s
  end.

(** ** containers.js: [refreshData] and the removal confirmation *)

Record Container := mkContainer {
  Id : string;
  Names : list string;
  Image : string;
  State : string
}.

(** What #errorMessage, #errorText, the three counters and [allContainers]
    hold.  [allContainers] is [None] once it has been set to [undefined];
    the counters are [None] until [updateSummaryPanel] first writes them. *)
Record Dashboard := mkDashboard {
  allContainers : option (list Container);
  summary : option (nat * nat * nat);   (* runningCount, stoppedCount, totalCount *)
  errorText : string;
  errorShown : bool
}.

Definition hideError (d : Dashboard) : Dashboard :=
  mkDashboard d.(allContainers) d.(summary) d.(errorText) false.

Definition showError (message : string) (d : Dashboard) : Dashboard :=
  mkDashboard d.(allContainers) d.(summary) message true.

Definition count_state (st : string) (cs : list Container) : nat :=
  length (filter (fun c => String.eqb c.(State) st) cs).

Definition updateSummaryPanel (cs : list Container) (d : Dashboard) : Dashboard :=
  mkDashboard d.(allContainers)
    (Some (count_state "running" cs, count_state "exited" cs, length cs))
    d.(errorText) d.(errorShown).

(** The body of a response, once [response.json()] runs on it: not JSON
    (the rejection's message), or a JSON object whose [containers] field is
    an array ([Some]) or missing ([None]).  Other JSON values (null, a
    [containers] field that is not an array) are not covered. *)
Inductive ResponseBody :=
| BodyNotJson (message : string)
| BodyJson (containers : option (list Container)).

Inductive ContainersFetch :=
| FetchFailed (message : string)             (* fetch rejects *)
| HttpResponse (status : nat) (body : ResponseBody).

Definition response_ok (status : nat) : bool := (200 <=? status) && (status <? 300).

Definition fetchContainerData (o : ContainersFetch) : Completion (option (list Container)) :=
  match o with
  | FetchFailed m => Throw m
  | HttpResponse status body =>
      if negb (response_ok status) then Throw ("HTTP error! status: " ++ string_of_nat status)
      else match body with
           | BodyNotJson m => Throw m
           | BodyJson cs => Normal cs
           end
  end.

(** [renderContainers] (the HTML of the cards) is left abstract: it sorts
    the array it is given in place and may throw (its message).  As
    [allContainers] is that same array, the sorted array is what
    [allContainers] holds afterwards.  [undefinedMessage] is the message of
    the TypeError thrown by [undefined.filter]. *)
Section Refresh.
Variable renderContainers : list Container -> list Container * option string.
Variable undefinedMessage : string.

Definition refreshData (o : ContainersFetch) (d : Dashboard) : Dashboard :=
  let d := hideError d in
  match fetchContainerData o with
  | Throw m => showError ("Failed to load container data: " ++ m) d
  | Normal None =>
      showError ("Failed to load container data: " ++ undefinedMessage)
        (mkDashboard None d.(summary) d.(errorText) d.(errorShown))
  | Normal (Some cs) =>
      let d := mkDashboard (Some cs) d.(summary) d.(errorText) d.(errorShown) in
      let d := updateSummaryPanel cs d in
      let '(sorted, thrown) := renderContainers cs in
      let d := mkDashboard (Some sorted) d.(summary) d.(errorText) d.(errorShown) in
      match thrown with
      | None => d
      | Some m => showError ("Failed to load container data: " ++ m) d
      end
  end.

Record ContainersUI := mkContainersUI {
  c_term : Term;
  dashboard : Dashboard;
  containerIdToRemove : option string;   (* null: None *)
  containerNameToRemove : string;        (* #containerNameToRemove textContent *)
  removeModalShown : bool;               (* #removeContainerModal *)
  removeButton : Button;                 (* #confirmRemoveButton *)
  removeTimers : nat                     (* pending 2-second timers of the button *)
}.

Definition confirmRemoveContainer (containerId containerName : string) (s : ContainersUI)
  : ContainersUI :=
  mkContainersUI s.(c_term) s.(dashboard) (Some containerId) containerName true
    s.(removeButton) s.(removeTimers).

(** The click listener that [setupRemovalConfirmation] registers. *)
Definition confirmRemoveClick (s : ContainersUI) : ContainersUI :=
  match s.(containerIdToRemove) with
  | Some id =>
      if String.eqb id "" then s else
      mkContainersUI
        (launchTerminalModal ("/containers/action/" ++ id ++ "/remove") s.(c_term))
        s.(dashboard) s.(containerIdToRemove) s.(containerNameToRemove) false
        (mkButton true (spinner_html "Removing...")) (S s.(removeTimers))
  | None => s
  end.

(** One pending timer of the button fires; the [refreshData()] it starts
    settles with outcome [o]. *)
Definition removeTimer (o : ContainersFetch) (s : ContainersUI) : ContainersUI :=
  match s.(removeTimers) with
  | O => s
  | S n =>
      mkContainersUI s.(c_term) (refreshData o s.(dashboard)) s.(containerIdToRemove)
        s.(containerNameToRemove) s.(removeModalShown)
        (mkButton false (icon_html "bi bi-trash me-2" ++ "Remove Container")) n
  end.

End Refresh.

(** ** Lemmas on the page scripts *)

Lemma split_on_nonnil (c : ascii) (s : string) : split_on c s <> [].
Proof.
  destruct s as [|x s]; cbn; [discriminate|].
  destruct (Ascii.eqb x c); [discriminate|].
  destruct (split_on c s); discriminate.
Qed.

Lemma split_on_app (c : ascii) (a t : string) :
  has_char c a = false ->
  split_on c (a ++ t) =
  match split_on c t with
  | r :: rs => (a ++ r)%string :: rs
  | [] => [a]
  end.
Proof.
  induction a as [|x a IH]; cbn; intros H.
  - destruct (split_on c t) eqn:E; [exfalso; exact (split_on_nonnil c t E)|].
    reflexivity.
  - apply orb_false_iff in H as [Hx Ha].
    rewrite Hx, (IH Ha).
    destruct (split_on c t) eqn:E; [exfalso; exact (split_on_nonnil c t E)|].
    reflexivity.
Qed.

Lemma append_empty_r (s : string) : (s ++ "")%string = s.
Proof. induction s as [|x s IH]; cbn; [reflexivity|rewrite IH; reflexivity]. Qed.

Lemma prefix_app (s t : string) : prefix s (s ++ t) = true.
Proof.
  induction s as [|x s IH]; cbn; [destruct t; reflexivity|].
  destruct (ascii_dec x x) as [_|n]; [exact IH|exfalso; exact (n eq_refl)].
Qed.

Lemma find_icon_label_split (pre post : list string) (v rest : string) :
  forallb (fun l => negb (prefix "homepage.icon=" l)) pre = true ->
  has_char "=" v = false ->
  (rest = EmptyString \/ exists r, rest = String "=" r) ->
  find_icon_label (pre ++ ("homepage.icon=" ++ v ++ rest)%string :: post) = Some v.
Proof.
  intros Hpre Hv Hrest.
  induction pre as [|l pre IH]; cbn [app find_icon_label forallb] in *.
  - rewrite prefix_app.
    change ("homepage.icon=" ++ v ++ rest)%string
      with ("homepage.icon" ++ String "=" (v ++ rest))%string.
    unfold js_split.
    rewrite (split_on_app "=" "homepage.icon" (String "=" (v ++ rest)) eq_refl).
    cbn [split_on]. rewrite Ascii.eqb_refl.
    rewrite (split_on_app "=" v rest Hv).
    destruct Hrest as [-> | [r ->]]; cbn;
      [rewrite append_empty_r; reflexivity|].
    rewrite append_empty_r. reflexivity.
  - apply andb_prop in Hpre as [Hl Hpre].
    apply negb_true_iff in Hl. rewrite Hl. exact (IH Hpre).
Qed.

Lemma find_icon_label_none (l : list string) :
  forallb (fun l => negb (prefix "homepage.icon=" l)) l = true ->
  find_icon_label l = None.
Proof.
  induction l as [|x l IH]; cbn; [reflexivity|].
  intros H. apply andb_prop in H as [Hx H].
  apply negb_true_iff in Hx. rewrite Hx. exact (IH H).
Qed.

Lemma substring_full (s : string) : substring 0 (String.length s) s = s.
Proof. induction s as [|x s IH]; cbn; [reflexivity|rewrite IH; reflexivity]. Qed.


Lemma add_class_size (c : string) (e : IconElement) :
  (add_class c e).(icon_size) = e.(icon_size).
Proof. unfold add_class. destruct existsb; reflexivity. Qed.

Lemma add_class_img (c : string) (e : IconElement) :
  (add_class c e).(icon_img) = e.(icon_img) /\ (add_class c e).(icon_name) = e.(icon_name).
Proof. unfold add_class. destruct existsb; split; reflexivity. Qed.


Definition is_alert (e : Effect) : bool :=
  match e with Alert _ => true | _ => false end.



Lemma refreshData_throw (render : list Container -> list Container * option string)
  (undef : string) (o : ContainersFetch) (d : Dashboard) (m : string) :
  fetchContainerData o = Throw m ->
  refreshData render undef o d =
  mkDashboard d.(allContainers) d.(summary) ("Failed to load container data: " ++ m) true.
Proof. intros H. unfold refreshData. rewrite H. reflexivity. Qed.

(** * Properties of the page scripts *)

Local Open Scope string_scope.
Local Open Scope list_scope.

(** X1 ([extractIconFromLabels]).  The first label that starts with
    [homepage.icon=] decides, whatever follows it; its value is the text
    after the first [=] up to the next [=] (the [split] limit of 2 drops
    the rest). *)
Theorem extractIconFromLabels_first_label (pre post : list string) (v rest : string) :
  forallb (fun l => negb (prefix "homepage.icon=" l)) pre = true ->
  has_char "=" v = false ->
  (rest = EmptyString \/ exists r, rest = String "=" r) ->
  extractIconFromLabels (LabelArray (pre ++ ("homepage.icon=" ++ v ++ rest)%string :: post))
  = Some v.
Proof. intros H1 H2 H3. exact (find_icon_label_split pre post v rest H1 H2 H3). Qed.

Lemma extractIconFromLabels_first_label_witness :
  extractIconFromLabels
    (LabelArray (["traefik.enable=true"; "homepage.name=Media"] ++
                 ("homepage.icon=" ++ "jellyfin" ++ "=extra")%string :: ["homepage.icon=plex"]))
  = Some "jellyfin"%string.
Proof.
  apply (extractIconFromLabels_first_label ["traefik.enable=true"; "homepage.name=Media"]
           ["homepage.icon=plex"] "jellyfin" "=extra").
  - reflexivity.
  - reflexivity.
  - right. exists "extra"%string. reflexivity.
Defined.

(** X2 ([extractIconFromLabels]).  A value that is not an array, and an
    array with no label starting with [homepage.icon=], give [null]. *)
Theorem extractIconFromLabels_null (l : list string) :
  forallb (fun l => negb (prefix "homepage.icon=" l)) l = true ->
  extractIconFromLabels (LabelArray l) = None /\ extractIconFromLabels NotArray = None.
Proof. intros H. split; [exact (find_icon_label_none l H)|reflexivity]. Qed.

Lemma extractIconFromLabels_null_witness :
  extractIconFromLabels (LabelArray ["homepage.icons=x"; "icon=homepage.icon=y"]) = None /\
  extractIconFromLabels NotArray = None.
Proof. apply extractIconFromLabels_null. reflexivity. Defined.

(** X3 ([addServiceIcons]).  The icon name falls back to the lowercased
    package name when the labels are not an array, carry no
    [homepage.icon=] label, or the first one has an empty value. *)
Theorem serviceIconName_fallback (toLowerCase : string -> string)
  (pre post : list string) (rest packageName : string) :
  forallb (fun l => negb (prefix "homepage.icon=" l)) pre = true ->
  (rest = EmptyString \/ exists r, rest = String "=" r) ->
  serviceIconName toLowerCase (LabelArray (pre ++ ("homepage.icon=" ++ rest)%string :: post))
    packageName = toLowerCase packageName /\
  serviceIconName toLowerCase (LabelArray pre) packageName = toLowerCase packageName /\
  serviceIconName toLowerCase NotArray packageName = toLowerCase packageName.
Proof.
  intros H1 H2. unfold serviceIconName, extractIconFromLabels.
  split; [|split; [rewrite (find_icon_label_none pre H1)|]; reflexivity].
  change ("homepage.icon=" ++ rest)%string with ("homepage.icon=" ++ "" ++ rest)%string.
  rewrite (find_icon_label_split pre post "" rest H1 eq_refl H2). reflexivity.
Qed.

Lemma serviceIconName_fallback_witness :
  serviceIconName (fun s => s) (LabelArray ([] ++ ("homepage.icon=" ++ "=x")%string :: []))
    "jellyfin" = "jellyfin"%string /\
  serviceIconName (fun s => s) (LabelArray []) "jellyfin" = "jellyfin"%string /\
  serviceIconName (fun s => s) NotArray "jellyfin" = "jellyfin"%string.
Proof.
  apply (serviceIconName_fallback (fun s => s) [] [] "=x" "jellyfin").
  - reflexivity.
  - right. exists "x"%string. reflexivity.
Defined.

(** X4 ([createServiceIcon]).  A name [mdi-m] gives a Material Design
    icon named [m] (also when [m] is empty), with no image, so the image
    error path leaves it as it is; its [mask] points to [/svg/m.svg] while
    its [webkitMask] points to [/static/svg/material-design-icons/m.svg],
    two different URLs. *)
Theorem createServiceIcon_mdi (m : string) (size : nat) :
  let e := createServiceIcon (Some ("mdi-" ++ m)%string) size in
  e.(icon_classes) = ["mdi-icon"%string] /\ e.(icon_type) = "mdi"%string /\
  e.(icon_name) = m /\
  e.(icon_mask) = Some (mask_value ("/svg/" ++ m ++ ".svg")) /\
  e.(icon_webkitMask) = Some (mask_value ("/static/svg/material-design-icons/" ++ m ++ ".svg")) /\
  e.(icon_mask) <> e.(icon_webkitMask) /\
  e.(icon_img) = None /\ iconImageError e = (e, None).
Proof.
  cbn zeta. unfold createServiceIcon.
  replace (String.eqb ("mdi-" ++ m) "") with false by reflexivity.
  rewrite prefix_app.
  replace (substring 4 (String.length ("mdi-" ++ m) - 4) ("mdi-" ++ m)) with m
    by (cbn; rewrite Nat.sub_0_r, substring_full; reflexivity).
  repeat split; try reflexivity.
  cbn. discriminate.
Qed.

(** X5 ([createServiceIcon], [img.onerror]).  Any other non-empty name
    gives a dashboard icon with the PNG of that name; when that image fails
    to load, the element is replaced by [createFallbackIcon(size)], which
    drops the classes added to the original (the [ms-2] of
    [addServiceIcons]). *)
Theorem createServiceIcon_dashboard_error (n : string) (size : nat) :
  n <> EmptyString -> prefix "mdi-" n = false ->
  let e := createServiceIcon (Some n) size in
  e.(icon_classes) = ["dashboard-icon"%string] /\ e.(icon_name) = n /\
  e.(icon_img) = Some ((n ++ " logo")%string, ("/static/png/dashboard-icons/" ++ n ++ ".png")%string) /\
  iconImageError (add_class "ms-2" e) =
    (createFallbackIcon size, Some ("Dashboard icon not found: " ++ n)%string) /\
  (fst (iconImageError (add_class "ms-2" e))).(icon_classes) = ["mdi-icon"%string] /\
  (fst (iconImageError (add_class "ms-2" e))).(icon_name) = "application"%string.
Proof.
  intros Hn Hp. cbn zeta.
  assert (He : createServiceIcon (Some n) size =
    mkIcon ["dashboard-icon"%string] "dashboard" n size None None
      (Some ((n ++ " logo")%string, ("/static/png/dashboard-icons/" ++ n ++ ".png")%string))).
  { unfold createServiceIcon. rewrite Hp.
    destruct (String.eqb n "") eqn:E; [apply String.eqb_eq in E; contradiction|reflexivity]. }
  rewrite He.
  assert (Hi : iconImageError (add_class "ms-2"
     (mkIcon ["dashboard-icon"%string] "dashboard" n size None None
       (Some ((n ++ " logo")%string, ("/static/png/dashboard-icons/" ++ n ++ ".png")%string)))) =
     (createFallbackIcon size, Some ("Dashboard icon not found: " ++ n)%string)).
  { unfold iconImageError.
    destruct (add_class_img "ms-2"
      (mkIcon ["dashboard-icon"%string] "dashboard" n size None None
        (Some ((n ++ " logo")%string, ("/static/png/dashboard-icons/" ++ n ++ ".png")%string))))
      as [-> ->].
    rewrite add_class_size. reflexivity. }
  rewrite Hi. repeat split; reflexivity.
Qed.

Lemma createServiceIcon_dashboard_error_witness :
  let e := createServiceIcon (Some "jellyfin"%string) 50 in
  e.(icon_classes) = ["dashboard-icon"%string] /\ e.(icon_name) = "jellyfin"%string /\
  e.(icon_img) = Some ("jellyfin logo"%string, "/static/png/dashboard-icons/jellyfin.png"%string) /\
  iconImageError (add_class "ms-2" e) =
    (createFallbackIcon 50, Some "Dashboard icon not found: jellyfin"%string) /\
  (fst (iconImageError (add_class "ms-2" e))).(icon_classes) = ["mdi-icon"%string] /\
  (fst (iconImageError (add_class "ms-2" e))).(icon_name) = "application"%string.
Proof.
  apply (createServiceIcon_dashboard_error "jellyfin" 50); [discriminate|reflexivity].
Defined.


(** X7 ([toggleService] and its three siblings).  Each call POSTs JSON to
    [/services/action/<id>/<action>] and ends in exactly one user-visible
    result: a page reload when [data.success] is truthy, otherwise one
    alert, with the page otherwise untouched. *)
Theorem serviceAction_single_outcome (action serviceId : string) (o : FetchOutcome) (p : Page) :
  let '(req, p') := serviceAction action serviceId o p in
  req.(req_method) = "POST"%string /\
  req.(req_url) = ("/services/action/" ++ serviceId ++ "/" ++ action)%string /\
  exists added, p'.(effects) = p.(effects) ++ added /\
    reloads added + length (filter is_alert added) = 1 /\
    (reloads added = 1 <-> exists e, o = ResponseJson (JsonObject true e)) /\
    (reloads added = 0 -> p' = set_effects p'.(effects) p).
Proof.
  destruct o as [| |[|[|] e]]; cbn -[reloads];
    (split; [reflexivity|split; [reflexivity|]]);
    [exists [ConsoleError "Error:"; Alert "Network error occurred"]
    |exists [ConsoleError "Error:"; Alert "Network error occurred"]
    |exists [ConsoleError "Error:"; Alert "Network error occurred"]
    |exists [PageReload]
    |exists [Alert ("Error: " ++ js_undefined_string e)]];
    destruct p; cbn; try rewrite <- app_assoc;
    repeat split;
    first [ reflexivity
          | intros [e' H]; discriminate
          | intros H; discriminate
          | intros _; reflexivity
          | intros _; unfold add_effect, set_effects; cbn; rewrite <- ?app_assoc; reflexivity
          | intros _; exists e; reflexivity ].
Qed.

(** X8 ([toggleService] and its three siblings).  What the user is told:
    a failure reply without [error] field alerts [Error: undefined], one
    with it alerts [Error: ] and the message; a network failure, a reply
    that is not JSON (an HTML error page) and a [null] body all alert
    [Network error occurred] after logging to the console. *)
Theorem serviceAction_messages (action serviceId e : string) (p : Page) :
  (snd (serviceAction action serviceId (ResponseJson (JsonObject false None)) p)).(effects)
    = p.(effects) ++ [Alert "Error: undefined"] /\
  (snd (serviceAction action serviceId (ResponseJson (JsonObject false (Some e))) p)).(effects)
    = p.(effects) ++ [Alert ("Error: " ++ e)] /\
  forall o, o = FetchRejected \/ o = ResponseNotJson \/ o = ResponseJson JsonNull ->
  (snd (serviceAction action serviceId o p)).(effects)
    = p.(effects) ++ [ConsoleError "Error:"; Alert "Network error occurred"].
Proof.
  split; [|split]; [destruct p; reflexivity|destruct p; reflexivity|].
  intros o [->|[->| ->]]; destruct p; cbn; rewrite <- app_assoc; reflexivity.
Qed.

(** X9 ([launchTerminalWithButtonAnimation]).  The button shows the
    spinner but stays enabled (even if it was disabled), the stream is
    launched right away, and when the 2-second timer fires the button gets
    back the content it had. *)
Theorem launchTerminalWithButtonAnimation_restores (streamUrl : string) (b : Button) (t : Term) :
  let s := launchTerminalWithButtonAnimation streamUrl true (mkAnimated b [] t) in
  s.(a_button) = mkButton false (spinner_html "Processing...") /\
  s.(a_term).(launched) = t.(launched) ++ [streamUrl] /\
  s.(a_term).(tpage) = launch streamUrl t.(tpage) /\
  (animationTimer s).(a_button) = mkButton false b.(innerHTML) /\
  (animationTimer s).(a_timers) = [].
Proof. repeat split; reflexivity. Qed.

(** X10 ([launchTerminalWithButtonAnimation]).  A second click before the
    first timer fires saves the spinner as its [originalContent]: both
    streams are launched, and once both timers have fired the button is
    left showing the spinner. *)
Theorem launchTerminalWithButtonAnimation_double_click (u1 u2 : string) (b : Button) (t : Term) :
  let s := launchTerminalWithButtonAnimation u2 true
             (launchTerminalWithButtonAnimation u1 true (mkAnimated b [] t)) in
  s.(a_term).(launched) = t.(launched) ++ [u1; u2] /\
  (animationTimer (animationTimer s)).(a_button) = mkButton false (spinner_html "Processing...") /\
  (animationTimer (animationTimer s)).(a_timers) = [].
Proof. cbn. rewrite <- app_assoc. repeat split; reflexivity. Qed.

(** X11 ([showDeleteConfirmation], #confirmDeleteBtn, [serviceActionWithTerminal]).
    Confirming a deletion with a non-empty URL launches that URL once,
    titles the terminal [<name> - Delete Service] (when the title element
    exists), hides the dialog and clears the pending deletion, so a second
    click does nothing. *)
Theorem confirmDelete_launches_once (serviceId serviceName deleteUrl : string) (s : DeleteUI) :
  deleteUrl <> EmptyString ->
  let s1 := confirmDeleteClick (showDeleteConfirmation serviceId serviceName deleteUrl s) in
  s1.(d_term).(launched) = s.(d_term).(launched) ++ [deleteUrl] /\
  s1.(d_term).(tpage) = launch deleteUrl s.(d_term).(tpage) /\
  s1.(terminalModalLabel) =
    option_map (fun _ => (icon_html "bi bi-terminal me-2" ++ serviceName ++ " - Delete Service")%string)
      s.(terminalModalLabel) /\
  s1.(deleteServiceUrl) = None /\ s1.(deleteServiceName) = None /\
  s1.(deleteModalShown) = false /\
  confirmDeleteClick s1 = s1.
Proof.
  intros Hu. cbn zeta.
  assert (H : confirmDeleteClick (showDeleteConfirmation serviceId serviceName deleteUrl s) =
    mkDeleteUI (launchTerminalModal deleteUrl s.(d_term))
      (option_map (fun _ => (icon_html "bi bi-terminal me-2" ++ serviceName ++ " - Delete Service")%string)
         s.(terminalModalLabel))
      None None
      (showDeleteConfirmation serviceId serviceName deleteUrl s).(deleteServiceModalLabel) false).
  { unfold confirmDeleteClick. cbn [deleteServiceUrl showDeleteConfirmation].
    destruct (String.eqb deleteUrl "") eqn:E; [apply String.eqb_eq in E; contradiction|].
    destruct s as [t [lbl|] u nm ml sh]; reflexivity. }
  rewrite H. repeat split; reflexivity.
Qed.

Lemma confirmDelete_launches_once_witness :
  let s0 := mkDeleteUI (mkTerm initial_page []) (Some "Terminal"%string) None None "" false in
  let s1 := confirmDeleteClick (showDeleteConfirmation "7" "Jellyfin" "/services/action/7/delete" s0) in
  s1.(d_term).(launched) = [] ++ ["/services/action/7/delete"%string] /\
  s1.(d_term).(tpage) = launch "/services/action/7/delete" initial_page /\
  s1.(terminalModalLabel) =
    option_map (fun _ => (icon_html "bi bi-terminal me-2" ++ "Jellyfin" ++ " - Delete Service")%string)
      (Some "Terminal"%string) /\
  s1.(deleteServiceUrl) = None /\ s1.(deleteServiceName) = None /\
  s1.(deleteModalShown) = false /\
  confirmDeleteClick s1 = s1.
Proof.
  exact (confirmDelete_launches_once "7" "Jellyfin" "/services/action/7/delete"
           (mkDeleteUI (mkTerm initial_page []) (Some "Terminal"%string) None None "" false)
           ltac:(discriminate)).
Defined.

(** X12 (#confirmDeleteBtn).  With no deletion pending, or an empty
    delete URL, a click changes nothing: no stream is launched and the
    dialog stays as it is. *)
Theorem confirmDeleteClick_inert (s : DeleteUI) :
  js_truthy s.(deleteServiceUrl) = false ->
  confirmDeleteClick s = s.
Proof.
  unfold js_truthy, confirmDeleteClick.
  destruct (deleteServiceUrl s) as [u|]; [|reflexivity].
  destruct (String.eqb u "") eqn:E; [reflexivity|discriminate].
Qed.

Lemma confirmDeleteClick_inert_witness :
  let s := showDeleteConfirmation "7" "Jellyfin" "" (mkDeleteUI (mkTerm initial_page []) None None None "" false) in
  js_truthy s.(deleteServiceUrl) = false /\ confirmDeleteClick s = s.
Proof.
  split; [reflexivity|]. apply confirmDeleteClick_inert. reflexivity.
Defined.

(** X13 ([setupRemovalConfirmation]).  A click on the removal button with
    no container chosen ([null] or an empty id) does nothing. *)
Theorem confirmRemoveClick_inert (s : ContainersUI) :
  js_truthy s.(containerIdToRemove) = false ->
  confirmRemoveClick s = s.
Proof.
  unfold js_truthy, confirmRemoveClick.
  destruct (containerIdToRemove s) as [u|]; [|reflexivity].
  destruct (String.eqb u "") eqn:E; [reflexivity|discriminate].
Qed.

Lemma confirmRemoveClick_inert_witness :
  let s := mkContainersUI (mkTerm initial_page []) (mkDashboard (Some []) None "" false)
             None "" false (mkButton false "Remove") 0 in
  js_truthy s.(containerIdToRemove) = false /\ confirmRemoveClick s = s.
Proof. split; [reflexivity|]. apply confirmRemoveClick_inert. reflexivity. Defined.

(** X14 ([confirmRemoveContainer], [setupRemovalConfirmation]).  After a
    container is chosen, a click launches [/containers/action/<id>/remove],
    disables the button and hides the dialog, and leaves the chosen id set;
    when its timer fires, the button is enabled again with its label and
    [refreshData] runs. *)
Theorem confirmRemove_flow (render : list Container -> list Container * option string)
  (undef : string) (o : ContainersFetch)
  (containerId containerName : string) (s : ContainersUI) :
  containerId <> EmptyString ->
  let url := ("/containers/action/" ++ containerId ++ "/remove")%string in
  let s1 := confirmRemoveClick (confirmRemoveContainer containerId containerName s) in
  s1.(c_term).(launched) = s.(c_term).(launched) ++ [url] /\
  s1.(c_term).(tpage) = launch url s.(c_term).(tpage) /\
  s1.(removeButton) = mkButton true (spinner_html "Removing...") /\
  s1.(removeModalShown) = false /\
  s1.(containerIdToRemove) = Some containerId /\
  (removeTimer render undef o s1).(removeButton) =
    mkButton false (icon_html "bi bi-trash me-2" ++ "Remove Container") /\
  (removeTimer render undef o s1).(dashboard) = refreshData render undef o s.(dashboard).
Proof.
  intros Hid. cbn zeta. unfold confirmRemoveClick. cbn [containerIdToRemove confirmRemoveContainer].
  destruct (String.eqb containerId "") eqn:E; [apply String.eqb_eq in E; contradiction|].
  cbn. repeat split; reflexivity.
Qed.

Lemma confirmRemove_flow_witness :
  let s := mkContainersUI (mkTerm initial_page []) (mkDashboard (Some []) None "" false)
             None "" false (mkButton false "Remove") 0 in
  let s1 := confirmRemoveClick (confirmRemoveContainer "abc123" "web" s) in
  s1.(c_term).(launched) = [] ++ ["/containers/action/abc123/remove"%string] /\
  s1.(c_term).(tpage) = launch "/containers/action/abc123/remove" initial_page /\
  s1.(removeButton) = mkButton true (spinner_html "Removing...") /\
  s1.(removeModalShown) = false /\
  s1.(containerIdToRemove) = Some "abc123"%string /\
  (removeTimer (fun l => (l, None)) "" (FetchFailed "Failed to fetch") s1).(removeButton) =
    mkButton false (icon_html "bi bi-trash me-2" ++ "Remove Container") /\
  (removeTimer (fun l => (l, None)) "" (FetchFailed "Failed to fetch") s1).(dashboard) =
    refreshData (fun l => (l, None)) "" (FetchFailed "Failed to fetch") (mkDashboard (Some []) None "" false).
Proof.
  exact (confirmRemove_flow (fun l => (l, None)) "" (FetchFailed "Failed to fetch") "abc123" "web"
           (mkContainersUI (mkTerm initial_page []) (mkDashboard (Some []) None "" false)
              None "" false (mkButton false "Remove") 0)
           ltac:(discriminate)).
Defined.

(** X15 ([refreshData], [fetchContainerData]).  When the data cannot be
    loaded (fetch rejects, or the body is not JSON) the error box shows
    [Failed to load container data: ] and the message, and the stored
    containers and the counters keep their previous values. *)
Theorem refreshData_failure_keeps_data
  (render : list Container -> list Container * option string) (undef : string)
  (o : ContainersFetch) (d : Dashboard) (m : string) :
  (o = FetchFailed m \/ exists status, response_ok status = true /\ o = HttpResponse status (BodyNotJson m)) ->
  let d' := refreshData render undef o d in
  d'.(allContainers) = d.(allContainers) /\ d'.(summary) = d.(summary) /\
  d'.(errorShown) = true /\ d'.(errorText) = ("Failed to load container data: " ++ m)%string.
Proof.
  intros H. cbn zeta.
  rewrite (refreshData_throw render undef o d m).
  - repeat split; reflexivity.
  - destruct H as [->|[st [Hok ->]]]; cbn; [reflexivity|].
    rewrite Hok. reflexivity.
Qed.

Lemma refreshData_failure_keeps_data_witness :
  let d' := refreshData (fun l => (l, None)) "" (HttpResponse 200 (BodyNotJson "Unexpected token <"))
              (mkDashboard (Some []) (Some (0, 0, 0)) "" false) in
  d'.(allContainers) = Some [] /\ d'.(summary) = Some (0, 0, 0) /\
  d'.(errorShown) = true /\ d'.(errorText) = ("Failed to load container data: " ++ "Unexpected token <")%string.
Proof.
  apply (refreshData_failure_keeps_data (fun l => (l, None)) ""
           (HttpResponse 200 (BodyNotJson "Unexpected token <"))
           (mkDashboard (Some []) (Some (0, 0, 0)) "" false) "Unexpected token <").
  right. exists 200. split; reflexivity.
Defined.

(** X16 ([fetchContainerData], [refreshData]).  A response whose status
    is outside 200-299 is an error whatever its body: the error box reads
    [Failed to load container data: HTTP error! status: <status>] and the
    stored containers and counters are kept. *)
Theorem refreshData_http_error
  (render : list Container -> list Container * option string) (undef : string)
  (status : nat) (body : ResponseBody) (d : Dashboard) :
  response_ok status = false ->
  refreshData render undef (HttpResponse status body) d =
  mkDashboard d.(allContainers) d.(summary)
    ("Failed to load container data: HTTP error! status: " ++ string_of_nat status) true.
Proof.
  intros H. apply refreshData_throw. cbn. rewrite H. reflexivity.
Qed.

Lemma refreshData_http_error_witness :
  response_ok 500 = false /\
  refreshData (fun l => (l, None)) "" (HttpResponse 500 (BodyJson (Some [])))
    (mkDashboard None None "" false) =
  mkDashboard None None "Failed to load container data: HTTP error! status: 500" true.
Proof.
  split; [reflexivity|].
  exact (refreshData_http_error (fun l => (l, None)) "" 500 (BodyJson (Some []))
           (mkDashboard None None "" false) eq_refl).
Defined.

(** X17 ([refreshData]).  A successful JSON reply without a [containers]
    array still overwrites [allContainers] (with [undefined]) before
    [updateSummaryPanel] throws: the error box is shown and the previous
    counters stay on screen, though the data they describe is gone. *)
Theorem refreshData_missing_containers
  (render : list Container -> list Container * option string) (undef : string)
  (status : nat) (d : Dashboard) :
  response_ok status = true ->
  let d' := refreshData render undef (HttpResponse status (BodyJson None)) d in
  d'.(allContainers) = None /\ d'.(summary) = d.(summary) /\
  d'.(errorShown) = true /\ d'.(errorText) = ("Failed to load container data: " ++ undef)%string.
Proof.
  intros H. cbn zeta. unfold refreshData. cbn. rewrite H. cbn.
  repeat split; reflexivity.
Qed.

Lemma refreshData_missing_containers_witness :
  let d' := refreshData (fun l => (l, None)) "Cannot read properties of undefined (reading 'filter')"
              (HttpResponse 200 (BodyJson None)) (mkDashboard (Some []) (Some (1, 0, 1)) "" false) in
  d'.(allContainers) = None /\ d'.(summary) = Some (1, 0, 1) /\
  d'.(errorShown) = true /\
  d'.(errorText) = ("Failed to load container data: " ++
                    "Cannot read properties of undefined (reading 'filter')")%string.
Proof.
  exact (refreshData_missing_containers (fun l => (l, None))
           "Cannot read properties of undefined (reading 'filter')" 200
           (mkDashboard (Some []) (Some (1, 0, 1)) "" false) eq_refl).
Defined.


